(** * camp_finder: the scraper package (scraper.go)

    A shallow embedding of the availability scraper: the date-range
    builder [getDates], the matcher [getAvailableSites], the fetch step
    [ScrapeAvailability] and the Pub/Sub entry point [ScrapeFromMessage],
    followed by the properties of each. *)

From Stdlib Require Import ZArith Lia Bool.
From Stdlib Require Import Floats.SpecFloat.
From stdpp Require Import base option list strings gmap pretty.

Open Scope Z_scope.

(** ** The Go [time] package, as far as scraper.go uses it *)

(** [time.Duration] is an int64 count of nanoseconds. *)
Definition Duration := Z.
Definition minDuration : Duration := - 2 ^ 63.
Definition maxDuration : Duration := 2 ^ 63 - 1.
Definition Hour : Duration := 60 * 60 * 1000000000.
Definition nsPerDay : Z := 24 * Hour.

(** [time.Time]. Every Time this program creates comes from [time.Parse]
    under [layoutISO] (no zone in the layout), from
    [time.Date(..., time.UTC)], is the zero Time, or is one of those moved by
    [Add]: it has no monotonic reading and its Location is UTC, so it is
    determined by its instant, and a Time is its number of nanoseconds since
    January 1, year 1, 00:00:00 UTC, the instant of the zero Time. Go keeps
    the seconds in an int64, which spans some 292 billion years around that
    instant; the dates of this program (years 0 to 9999, moved by less than
    293 years) are far inside, so [Add] needs no wrap-around. The keys of
    [Availabilities] are not created by the program but decoded from JSON:
    see [Location]. *)
Definition Time := Z.
Definition zeroTime : Time := 0.

(** [t.Add(d)]. *)
Definition Add (t : Time) (d : Duration) : Time := t + d.

(** [t.Sub(u)]: the difference, saturated to the range of Duration. *)
Definition Sub (t u : Time) : Duration :=
  let d := t - u in
  if d <? minDuration then minDuration
  else if maxDuration <? d then maxDuration
  else d.

(** float64 as IEEE 754 binary64 (precision 53, emax 1024). *)
Definition float64 := spec_float.
Definition float64_of_int (z : Z) : float64 := binary_normalize 53 1024 z 0 false.
Definition float64_add : float64 -> float64 -> float64 := SFadd 53 1024.
Definition float64_div : float64 -> float64 -> float64 := SFdiv 53 1024.

(** The conversion [int(x)] of a float64: the fraction is discarded
    (truncation towards zero). For a NaN or an infinity Go leaves the value
    to the implementation; amd64 gives the smallest int64. *)
Definition int_of_float64 (x : float64) : Z :=
  match x with
  | S754_zero _ => 0
  | S754_finite s m e =>
      let a := if 0 <=? e then Z.shiftl (Z.pos m) e else Z.shiftr (Z.pos m) (- e) in
      if s then - a else a
  | S754_infinity _ | S754_nan => - 2 ^ 63
  end.

(** [d.Hours()]:
      hour := d / Hour; nsec := d % Hour
      return float64(hour) + float64(nsec)/(60*60*1e9) *)
Definition Hours (d : Duration) : float64 :=
  let hour := Z.quot d Hour in
  let nsec := Z.rem d Hour in
  float64_add (float64_of_int hour)
              (float64_div (float64_of_int nsec) (float64_of_int (60 * 60 * 1000000000))).

(** [time.ParseDuration(fmt.Sprintf("%dh", h))]: the decimal rendering of
    [h] followed by the unit "h" parses back to [h] hours, unless that
    overflows a Duration, in which case ParseDuration returns 0 and an
    error. *)
Definition ParseDuration_hours (h : Z) : Duration * option string :=
  if (minDuration <=? h * Hour) && (h * Hour <=? maxDuration)
  then (h * Hour, None)
  else (0, Some "time: invalid duration")%string.

(** Calendar arithmetic (proleptic Gregorian, UTC). [Date y m d] is
    [time.Date(y, m, d, 0, 0, 0, 0, time.UTC)] for 1 <= m <= 12 and a day of
    that month. *)
Definition days_from_civil (y m d : Z) : Z :=
  let y' := if m <=? 2 then y - 1 else y in
  let era := y' / 400 in
  let yoe := y' - era * 400 in
  let mp := if 2 <? m then m - 3 else m + 9 in
  let doy := (153 * mp + 2) / 5 + d - 1 in
  let doe := yoe * 365 + yoe / 4 - yoe / 100 + doy in
  era * 146097 + doe - 306.

Definition civil_from_days (n : Z) : Z * Z * Z :=
  let z := n + 306 in
  let era := z / 146097 in
  let doe := z - era * 146097 in
  let yoe := (doe - doe / 1460 + doe / 36524 - doe / 146096) / 365 in
  let doy := doe - (365 * yoe + yoe / 4 - yoe / 100) in
  let mp := (5 * doy + 2) / 153 in
  let d := doy - (153 * mp + 2) / 5 + 1 in
  let m := if mp <? 10 then mp + 3 else mp - 9 in
  let y := yoe + era * 400 in
  (if m <=? 2 then y + 1 else y, m, d).

Definition Date (y m d : Z) : Time := days_from_civil y m d * nsPerDay.
Definition dayOf (t : Time) : Z := t / nsPerDay.
Definition Year (t : Time) : Z := (civil_from_days (dayOf t)).1.1.
Definition Month (t : Time) : Z := (civil_from_days (dayOf t)).1.2.
Definition Day (t : Time) : Z := (civil_from_days (dayOf t)).2.
(** [t.Weekday()], Sunday = 0; January 1 of year 1 is a Monday. *)
Definition Weekday (t : Time) : Z := (dayOf t + 1) mod 7.

(** ** getDates *)

(** func getDates(startDate time.Time, endDate time.Time) []time.Time

    The loop bound [int(endDate.Sub(startDate).Hours()/24)] does not change
    between iterations; the body appends [startDate.Add(dayDuration)] for
    day = 0, 1, ..., bound-1. *)
Definition dayCount (startDate endDate : Time) : Z :=
  int_of_float64 (float64_div (Hours (Sub endDate startDate)) (float64_of_int 24)).

Definition getDates (startDate endDate : Time) : list Time :=
  (λ day : Z,
     let dayDuration := (ParseDuration_hours (24 * day)).1 in
     Add startDate dayDuration) <$> seqZ 0 (dayCount startDate endDate).

(** A calendar date: a Time at midnight UTC. *)
Definition calendarDate (t : Time) : Prop := ∃ day : Z, t = day * nsPerDay.
(** Whole days from [a] to [b], and [t] moved by [n] days. *)
Definition daysBetween (a b : Time) : Z := (b - a) / nsPerDay.
Definition addDays (t : Time) (n : Z) : Time := t + n * nsPerDay.
(** The largest number of whole days a Duration holds. *)
Definition maxDays : Z := 106751.

(** ** Text formatting *)

(** [appendInt(b, x, width)] of package time: decimal, zero-padded. *)
Definition appendInt (x : Z) (width : nat) : string :=
  let digits := pretty (Z.abs x) in
  let zeros := String.concat "" (replicate (width - String.length digits) "0") in
  (if x <? 0 then "-" else "") +:+ zeros +:+ digits.

(** The fractional-second element ".999999": up to six digits, trailing
    zeros removed, nothing at all for a whole second. *)
Fixpoint fraction_digits (fuel : nat) (micro : Z) (width : nat) : string :=
  match fuel with
  | O => appendInt micro width
  | S fuel' =>
      if (micro mod 10 =? 0) && (1 <? Z.of_nat width)
      then fraction_digits fuel' (micro / 10) (width - 1)
      else appendInt micro width
  end.

Definition fraction (nsec : Z) : string :=
  let micro := nsec / 1000 in
  if micro =? 0 then "" else "." +:+ fraction_digits 6 micro 6.

(** [t.Format("2006-01-02T15:04:05.999999Z")]; the final Z is literal. *)
Definition Format_start_date (t : Time) : string :=
  let ns := t mod nsPerDay in
  appendInt (Year t) 4 +:+ "-" +:+ appendInt (Month t) 2 +:+ "-" +:+ appendInt (Day t) 2
  +:+ "T" +:+ appendInt (ns / Hour) 2
  +:+ ":" +:+ appendInt (ns mod Hour / 60000000000) 2
  +:+ ":" +:+ appendInt (ns mod 60000000000 / 1000000000) 2
  +:+ fraction (ns mod 1000000000) +:+ "Z".

Definition shortDayNames : list string :=
  ["Sun"; "Mon"; "Tue"; "Wed"; "Thu"; "Fri"; "Sat"].
Definition shortMonthNames : list string :=
  ["Jan"; "Feb"; "Mar"; "Apr"; "May"; "Jun"; "Jul"; "Aug"; "Sep"; "Oct"; "Nov"; "Dec"].

(** [t.Format("Mon Jan 2")]. *)
Definition Format_MonJan2 (t : Time) : string :=
  default "" (shortDayNames !! Z.to_nat (Weekday t)) +:+ " "
  +:+ default "" (shortMonthNames !! Z.to_nat (Month t - 1)) +:+ " "
  +:+ pretty (Day t).

(** [strings.Join(elems, sep)]. *)
Fixpoint Join (elems : list string) (sep : string) : string :=
  match elems with
  | [] => ""
  | [s] => s
  | s :: rest => s +:+ sep +:+ Join rest sep
  end.

(** ** Data *)

(** The [*time.Location] of a Time as [==] sees it, by the pointer. The
    keys of [Availabilities] are decoded by [Time.UnmarshalText]: a key
    written with "Z" gets UTC (stored as the nil pointer, as for every Time
    the program creates), a key written with an offset gets [time.Local]
    when that is the offset of the local zone, and otherwise a zone made by
    [time.FixedZone], which allocates one per call. *)
Inductive Location :=
  | UTC
  | Local
  | FixedZone (ptr : positive).

#[global] Instance Location_eq_dec : EqDecision Location.
Proof. solve_decision. Defined.

#[global] Instance Location_countable : Countable Location.
Proof.
  refine (inj_countable'
            (λ l, match l with
                  | UTC => inl ()
                  | Local => inr (inl ())
                  | FixedZone ptr => inr (inr ptr)
                  end)
            (λ s, match s with
                  | inl _ => UTC
                  | inr (inl _) => Local
                  | inr (inr ptr) => FixedZone ptr
                  end) _).
  by intros [].
Defined.

(** A Time of the program as a map key: its instant, in UTC. *)
Definition inUTC (t : Time) : Z * Location := (t, UTC).

(** type Campsite struct. [Availabilities] is a [map[time.Time]string]: Go
    compares its keys as structs, so two keys are the same when they have
    the same instant and the same Location pointer. A key is the pair of
    both. *)
Record Campsite := {
  CampsiteID : Z;
  CampsiteType : string;
  Availabilities : gmap (Z * Location) string
}.

(** type Campground struct. The zero value has a nil map, which reads as
    the empty map. *)
Record Campground := { Campsites : gmap string Campsite }.

Definition zeroCampground : Campground := {| Campsites := ∅ |}.

(** type MessageContent struct: the payload of a Pub/Sub event. *)
Module MessageContent.
Record t := {
  Name : string;
  Campground : string;
  Arrival : string;
  Departure : string
}.
Definition zero : t :=
  {| Name := ""; Campground := ""; Arrival := ""; Departure := "" |}.
End MessageContent.

(** ** getAvailableSites *)

(** [m[key]] on a [map[time.Time]string], for a [key] the program has
    created: the entry with that instant and the UTC Location, and the zero
    value when the map has no such key. *)
Definition index (m : gmap (Z * Location) string) (key : Time) : string :=
  default "" (m !! inUTC key).

(** The inner loop [for idx, date := range dates], entered at index [idx]
    with [rest] still to visit; the state is [(count, campsiteNames)]. *)
Fixpoint rangeDates (site : Campsite) (siteID : string) (len_dates : Z)
    (idx : Z) (rest : list Time) (st : Z * list string) : Z * list string :=
  match rest with
  | [] => st
  | date :: rest' =>
      if decide (index (Availabilities site) date ≠ "Available") then st (* break *)
      else if idx =? len_dates - 1
           then rangeDates site siteID len_dates (idx + 1) rest' (st.1 + 1, st.2 ++ [siteID])
           else rangeDates site siteID len_dates (idx + 1) rest' st
  end.

(** Lines 140-153: the two loops over an already computed [dates]. [visit]
    is the order in which [range campground.Campsites] yields the entries
    of the map: Go leaves it unspecified. *)
Definition availableSitesOn (visit : list (string * Campsite) → list (string * Campsite))
    (campground : Campground) (dates : list Time) : list string :=
  (foldl (λ st entry,
            rangeDates entry.2 entry.1 (Z.of_nat (length dates)) 0 dates st)
         (0, []) (visit (map_to_list (Campsites campground)))).2.

(** func getAvailableSites(campground Campground, arrival, departure time.Time) []string *)
Definition getAvailableSites (visit : list (string * Campsite) → list (string * Campsite))
    (campground : Campground) (arrival departure : Time) : list string :=
  let dates := getDates arrival departure in
  availableSitesOn visit campground dates.

(** A visiting order is admissible when it yields each entry once. *)
Definition rangeOrder (visit : list (string * Campsite) → list (string * Campsite)) : Prop :=
  ∀ entries, visit entries ≡ₚ entries.

(** A site qualifies for [dates] when every date is labelled "Available",
    under the key that [site.Availabilities[date]] looks up. *)
Definition fullyAvailable (site : Campsite) (dates : list Time) : Prop :=
  ∀ date, date ∈ dates → Availabilities site !! inUTC date = Some "Available".

(** ** Effects *)

(** A Go [error] value, by its text. *)
Definition error := string.

(** The message handed to the SendGrid client. *)
Record Email := {
  from : string * string;
  subject : string;
  to : string * string;
  plainTextContent : string;
  htmlContent : string
}.

(** What a run does to the outside world, in order. [EvSendEmail] and
    [EvDeleteJob] mark the entry of [sendEmail] and [deleteJob] with their
    arguments; the other events are the calls those functions and
    [ScrapeAvailability] make to their libraries: [EvHttpGet url] is the
    call [http.Get(url)], whatever the library then sends. *)
Inductive event :=
  | EvLog (line : string)
  | EvPrint (line : string)
  | EvHttpGet (url : string)
  | EvSendEmail (id : string) (availableSites : list string) (arrival departure : string)
  | EvMailSend (message : Email)
  | EvDeleteJob (jobName : string)
  | EvSchedulerDeleteJob (name : string).

(** A call either returns or panics. *)
Inductive outcome (A : Type) :=
  | Returned (a : A)
  | Panicked (reason : string).
Arguments Returned {A} a.
Arguments Panicked {A} reason.

(** Computations: the events emitted so far and how the call ended. *)
Definition M (A : Type) : Type := list event * outcome A.

#[global] Instance M_ret : MRet M := λ A a, ([], Returned a).
#[global] Instance M_bind : MBind M := λ A B k m,
  match m with
  | (tr, Returned a) => let r := k a in (tr ++ r.1, r.2)
  | (tr, Panicked reason) => (tr, Panicked reason)
  end.

Definition emit (e : event) : M unit := ([e], Returned tt).
Definition panic {A : Type} (reason : string) : M A := ([], Panicked reason).

(** The collaborators of one run. A function that returns a value and an
    error returns here the value it leaves behind together with the error,
    [None] standing for nil. *)
Record Env := {
  (** [json.Unmarshal(data, &messageContent)] on a zero MessageContent *)
  json_Unmarshal_MessageContent : string → MessageContent.t * option error;
  (** [time.Parse(layoutISO, value)]: [None] for (Time{}, err) *)
  time_Parse : string → option Time;
  (** [http.Get(url)]: the response body, [None] for (nil, err) *)
  http_Get : string → option string;
  (** [ioutil.ReadAll(response.Body)] *)
  ioutil_ReadAll : string → string * option error;
  (** [json.Unmarshal(data, &campground)] on a zero Campground *)
  json_Unmarshal_Campground : string → Campground * option error;
  (** the order of [range campground.Campsites] *)
  range_Campsites : list (string * Campsite) → list (string * Campsite);
  (** [client.Send(message)]: status code, body and headers, or an error *)
  sendgrid_Send : Email → (Z * string * string) + error;
  (** [scheduler.NewCloudSchedulerClient(ctx)] *)
  NewCloudSchedulerClient : option error;
  (** [c.DeleteJob(ctx, req)] by [req.Name] *)
  scheduler_DeleteJob : string → option error
}.

Definition layoutISO : string := "2006-1-2".

Section Scraper.
Context (env : Env).

(** func ScrapeAvailability(campgroundID string, arrival, departure time.Time) []string

    [response, _ := http.Get(url)] leaves [response] nil when the request
    fails, and [response.Body] then dereferences a nil pointer. *)
Definition start_url (campgroundID : string) (arrival : Time) : string :=
  let firstOfMonth := Date (Year arrival) (Month arrival) 1 in
  "https://www.recreation.gov/api/camps/availability/campground/" +:+ campgroundID
  +:+ "/month?start_date=" +:+ Format_start_date firstOfMonth.

Definition ScrapeAvailability (campgroundID : string) (arrival departure : Time)
    : M (list string) :=
  let url := start_url campgroundID arrival in
  emit (EvHttpGet url);;
  match http_Get env url with
  | None => panic "runtime error: invalid memory address or nil pointer dereference"
  | Some body =>
      let data := (ioutil_ReadAll env body).1 in
      let campground := (json_Unmarshal_Campground env data).1 in
      let availableSites :=
        getAvailableSites (range_Campsites env) campground arrival departure in
      mret availableSites
  end.

(** func sendEmail(id string, availableSites []string, arrival, departure string) *)
Definition sendEmail (id : string) (availableSites : list string)
    (arrival departure : string) : M unit :=
  emit (EvSendEmail id availableSites arrival departure);;
  let message :=
    {| from := (" Stefan", "stefan@stefangrasu.com");
       subject := "Available sites found for " +:+ id +:+ " between " +:+ arrival
                  +:+ " and " +:+ departure;
       to := ("Stefan", "sgrasu17@gmail.com");
       plainTextContent := "and easy to do anywhere, even with Go";
       htmlContent := "<strong>" +:+ "Found these available sites: "
                      +:+ Join availableSites "," +:+ "</strong>" |} in
  emit (EvMailSend message);;
  match sendgrid_Send env message with
  | inr err => emit (EvLog err)
  | inl (StatusCode, Body, Headers) =>
      emit (EvPrint (pretty StatusCode));;
      emit (EvPrint Body);;
      emit (EvPrint Headers)
  end.

(** func deleteJob(jobName string) error *)
Definition deleteJob (jobName : string) : M (option error) :=
  emit (EvDeleteJob jobName);;
  match NewCloudSchedulerClient env with
  | Some err => emit (EvLog ("error cuz " +:+ err));; mret (Some err)
  | None =>
      let req_Name := "projects/camp-finder-258618/locations/us-west2/jobs/" +:+ jobName in
      emit (EvSchedulerDeleteJob req_Name);;
      match scheduler_DeleteJob env req_Name with
      | Some err => emit (EvLog ("didn't delete because " +:+ err));; mret (Some err)
      | None => mret None
      end
  end.

(** func ScrapeFromMessage(ctx context.Context, m pubsub.Message) error,
    on [m.Data]. *)
Definition ScrapeFromMessage (m_Data : string) : M (option error) :=
  let '(messageContent, err) := json_Unmarshal_MessageContent env m_Data in
  match err with Some e => emit (EvLog e) | None => mret tt end;;
  if Z.of_nat (String.length (MessageContent.Name messageContent)) <=? 0
  then mret (Some "this is an error")
  else
    let id := MessageContent.Campground messageContent in
    let jobName := MessageContent.Name messageContent in
    let arrival := default zeroTime (time_Parse env (MessageContent.Arrival messageContent)) in
    let departure := default zeroTime (time_Parse env (MessageContent.Departure messageContent)) in
    available ← ScrapeAvailability id arrival departure;
    if 0 <? Z.of_nat (length available)
    then
      sendEmail id available (Format_MonJan2 arrival) (Format_MonJan2 departure);;
      _ ← deleteJob jobName;
      mret None
    else mret None.
End Scraper.

(** The calls to [sendEmail] and [deleteJob] in a trace, in order, and the
    requests that reached the scheduler. *)
Definition is_collaborator_call (e : event) : bool :=
  match e with EvSendEmail _ _ _ _ | EvDeleteJob _ => true | _ => false end.
Definition is_fetch (e : event) : bool :=
  match e with EvHttpGet _ => true | _ => false end.
Definition is_downstream (e : event) : bool :=
  match e with EvLog _ => false | _ => true end.
Definition collaborator_calls (tr : list event) : list event :=
  List.filter is_collaborator_call tr.
Definition deleteJob_calls (tr : list event) : list string :=
  omap (λ e, match e with EvDeleteJob jobName => Some jobName | _ => None end) tr.
Definition scheduler_requests (tr : list event) : list string :=
  omap (λ e, match e with EvSchedulerDeleteJob name => Some name | _ => None end) tr.

(** ** Notions used in the statements *)

(** A float that is negative, a zero or not a number. *)
Definition signed_down (x : float64) : Prop :=
  match x with
  | S754_zero _ | S754_nan => True
  | S754_infinity s | S754_finite s _ _ => s = true
  end.

(** The entries whose site is appended by the loops of getAvailableSites. *)
Definition qualifying (dates : list Time) (entry : string * Campsite) : Prop :=
  dates ≠ [] ∧ Forall (λ date, Availabilities entry.2 !! inUTC date = Some "Available") dates.

#[local] Instance qualifying_dec dates entry : Decision (qualifying dates entry).
Proof. unfold qualifying. apply _. Defined.

(** What [log.Println(err)] after the decoding of the payload emits. *)
Definition decode_log (err : option error) : list event :=
  match err with Some e => [EvLog e] | None => [] end.

(** The dates a run works with: a string that does not parse leaves the
    zero Time. *)
Definition run_arrival (env : Env) (mc : MessageContent.t) : Time :=
  default zeroTime (time_Parse env (MessageContent.Arrival mc)).
Definition run_departure (env : Env) (mc : MessageContent.t) : Time :=
  default zeroTime (time_Parse env (MessageContent.Departure mc)).

(** The Campground that [json.Unmarshal] leaves for a response body. *)
Definition decoded_campground (env : Env) (body : string) : Campground :=
  (json_Unmarshal_Campground env (ioutil_ReadAll env body).1).1.

(** The events of the notification and of the cancellation that follow a
    match. *)
Definition notify_and_cancel (env : Env) (mc : MessageContent.t)
    (available : list string) : list event :=
  (sendEmail env (MessageContent.Campground mc) available
     (Format_MonJan2 (run_arrival env mc)) (Format_MonJan2 (run_departure env mc))).1
  ++ (deleteJob env (MessageContent.Name mc)).1.

(** ** Sample data *)

Definition siteA : Campsite :=
  {| CampsiteID := 1; CampsiteType := "STANDARD NONELECTRIC";
     Availabilities := {[ inUTC (Date 2024 3 5) := "Available";
                          inUTC (Date 2024 3 6) := "Available";
                          inUTC (Date 2024 3 7) := "Available" ]} |}.
Definition siteB : Campsite :=
  {| CampsiteID := 2; CampsiteType := "STANDARD NONELECTRIC";
     Availabilities := {[ inUTC (Date 2024 3 5) := "Available";
                          inUTC (Date 2024 3 6) := "Reserved";
                          inUTC (Date 2024 3 7) := "Available" ]} |}.
Definition sampleCampground : Campground :=
  {| Campsites := {[ "A" := siteA; "B" := siteB ]} |}.
Definition onlyB : Campground := {| Campsites := {[ "B" := siteB ]} |}.
Definition onlyA : Campground := {| Campsites := {[ "A" := siteA ]} |}.
Definition sampleNights : list Time := [Date 2024 3 5; Date 2024 3 6; Date 2024 3 7].

Definition sample_time_Parse (value : string) : option Time :=
  if decide (value = "2024-3-5") then Some (Date 2024 3 5)
  else if decide (value = "2024-3-8") then Some (Date 2024 3 8)
  else None.

(** An environment that decodes every payload to [decoded], answers every
    request with [response] and decodes every body to [campground]. *)
Definition sampleEnv (decoded : MessageContent.t * option error)
    (response : option string) (campground : Campground * option error) : Env :=
  {| json_Unmarshal_MessageContent := λ _, decoded;
     time_Parse := sample_time_Parse;
     http_Get := λ _, response;
     ioutil_ReadAll := λ body, (body, None);
     json_Unmarshal_Campground := λ _, campground;
     range_Campsites := λ entries, entries;
     sendgrid_Send := λ _, inl (202, "", "map[]");
     NewCloudSchedulerClient := None;
     scheduler_DeleteJob := λ _, None |}.

Definition goodMessage : MessageContent.t :=
  {| MessageContent.Name := "job-1"; MessageContent.Campground := "232447";
     MessageContent.Arrival := "2024-3-5"; MessageContent.Departure := "2024-3-8" |}.
Definition badDeparture : MessageContent.t :=
  {| MessageContent.Name := "job-1"; MessageContent.Campground := "232447";
     MessageContent.Arrival := "2024-3-5"; MessageContent.Departure := "next friday" |}.
(** The payload {"Name":"job-1","Campground":232447,"Arrival":"2024-3-5",
    "Departure":"2024-3-8"}: the number does not fit the string field, which
    is skipped and reported, and the other fields are filled in. *)
Definition mistypedMessage : MessageContent.t * option error :=
  ({| MessageContent.Name := "job-1"; MessageContent.Campground := "";
      MessageContent.Arrival := "2024-3-5"; MessageContent.Departure := "2024-3-8" |},
   Some "json: cannot unmarshal number into Go struct field MessageContent.Campground of type string").
(** A body in which site A carries a mistyped campsite_id: the field is
    skipped and reported, the rest of the site is decoded. *)
Definition mistypedCampground : Campground * option error :=
  (onlyA,
   Some "json: cannot unmarshal string into Go struct field Campsite.Campsites.campsite_id of type int").

Definition env_match : Env := sampleEnv (goodMessage, None) (Some "{}") (sampleCampground, None).
Definition env_no_match : Env := sampleEnv (goodMessage, None) (Some "{}") (onlyB, None).
Definition env_offline : Env := sampleEnv (goodMessage, None) None (sampleCampground, None).
Definition env_badDeparture : Env :=
  sampleEnv (badDeparture, None) (Some "{}") (sampleCampground, None).
Definition env_mistyped : Env := sampleEnv mistypedMessage (Some "{}") (sampleCampground, None).
Definition env_truncated : Env :=
  sampleEnv (MessageContent.zero, Some "unexpected end of JSON input") (Some "{}")
            (sampleCampground, None).
Definition env_partial : Env := sampleEnv (goodMessage, None) (Some "{}") mistypedCampground.
Definition march_url : string :=
  "https://www.recreation.gov/api/camps/availability/campground/232447/month?start_date=2024-03-01T00:00:00Z".
(** A body that is not JSON at all: nothing is decoded. *)
Definition env_bad_body : Env :=
  sampleEnv (goodMessage, None) (Some "<html>")
            (zeroCampground, Some "invalid character '<' looking for beginning of value").

(** ** More of scraper.go *)

(** The final [(count, campsiteNames)] of the loops of getAvailableSites;
    [availableSitesOn] is its second component. *)
Definition availableSitesState (visit : list (string * Campsite) → list (string * Campsite))
    (campground : Campground) (dates : list Time) : Z * list string :=
  foldl (λ st entry,
           rangeDates entry.2 entry.1 (Z.of_nat (length dates)) 0 dates st)
        (0, []) (visit (map_to_list (Campsites campground))).

(** The message that sendEmail builds. *)
Definition notification (id : string) (availableSites : list string)
    (arrival departure : string) : Email :=
  {| from := (" Stefan", "stefan@stefangrasu.com");
     subject := "Available sites found for " +:+ id +:+ " between " +:+ arrival
                +:+ " and " +:+ departure;
     to := ("Stefan", "sgrasu17@gmail.com");
     plainTextContent := "and easy to do anywhere, even with Go";
     htmlContent := "<strong>" +:+ "Found these available sites: "
                    +:+ Join availableSites "," +:+ "</strong>" |}.

(** A campground in which the label of [siteID] on [date] is [label]. *)
Definition relabel (campground : Campground) (siteID : string) (site : Campsite)
    (date : Time) (label : string) : Campground :=
  {| Campsites :=
       <[siteID := {| CampsiteID := CampsiteID site; CampsiteType := CampsiteType site;
                      Availabilities := <[inUTC date := label]> (Availabilities site) |}]>
         (Campsites campground) |}.

(** *** TestPub *)

(** The Pub/Sub client of TestPub. *)
Record PubSub := {
  (** [pubsub.NewClient(ctx, projectID)] *)
  pubsub_NewClient : option error;
  (** [res.Get(ctx)] on the result of publishing [Data]: [None] for a
      server-generated ID *)
  publish_Get : string → option error
}.

(** [PubPublish] is the call [t.Publish(ctx, msg)]; whether the message
    is published is what [publish_Get] tells. *)
Inductive pubsub_event :=
  | PubPublish (projectID topicID data : string)
  | PubLog (line : string).

(** func TestPub(available []string) error

    The one goroutine is started after [wg.Add(1)] and joined by
    [wg.Wait()] before [totalErrors] is read, so its body runs to its end
    between the two; it is modelled in that place. *)
Definition TestPub (ps : PubSub) (available : list string)
    : list pubsub_event * option error :=
  let projectID := "camp-finder-258618" in
  let topicID := "TEST_PUB_TOPIC" in
  match pubsub_NewClient ps with
  | Some err => ([], Some ("pubsub.NewClient: " +:+ err))
  | None =>
      let totalErrors := 0 in
      let data := "Found these " +:+ Join available "," in
      let published := [PubPublish projectID topicID data] in
      let '(logged, totalErrors) :=
        match publish_Get ps data with
        | Some err => ([PubLog ("Failed to publish: " +:+ err)], totalErrors + 1)
        | None => ([], totalErrors)
        end in
      if 0 <? totalErrors
      then (published ++ logged, Some " messages did not publish successfully")
      else (published ++ logged, None)
  end.

(** The data of the messages handed to Publish in a trace of TestPub. *)
Definition published_data (tr : list pubsub_event) : list string :=
  omap (λ e, match e with PubPublish _ _ data => Some data | PubLog _ => None end) tr.

(** *** logJobs *)

(** The scheduler as logJobs sees it. [lister_Next] lists what [it.Next()]
    returns call after call on the iterator of the created client, [None]
    for a job and [Some err] for an error; past its end Next returns
    iterator.Done. When the client could not be created the code goes on
    with a nil client: what [c.ListJobs] and the iterator do then belongs to
    the library and is the field [lister_nil_client]. *)
Record JobLister := {
  lister_NewClient : option error;
  lister_Next : list (option error);
  lister_nil_client : outcome (list (option error))
}.

Inductive lister_event :=
  | ListLog (line : string)
  | ListJobs (parent : string)
  | ListNext.

(** The loop [for { _, err := it.Next(); ... }]. *)
Fixpoint logJobs_loop (results : list (option error)) : list lister_event * option error :=
  match results with
  | [] => ([ListNext], None) (* iterator.Done *)
  | Some err :: _ => ([ListNext; ListLog ("whyhwy2 " +:+ err)], Some err)
  | None :: results' =>
      let r := logJobs_loop results' in (ListNext :: r.1, r.2)
  end.

(** func logJobs() error *)
Definition logJobs (sch : JobLister) : list lister_event * outcome (option error) :=
  let parent := "projects/camp-finder-258618/locations/us-west2" in
  match lister_NewClient sch with
  | Some err =>
      match lister_nil_client sch with
      | Panicked reason =>
          ([ListLog ("Failed to list jobs:  " +:+ err); ListJobs parent], Panicked reason)
      | Returned results =>
          let r := logJobs_loop results in
          (ListLog ("Failed to list jobs:  " +:+ err) :: ListJobs parent :: r.1, Returned r.2)
      end
  | None =>
      let r := logJobs_loop (lister_Next sch) in
      (ListJobs parent :: r.1, Returned r.2)
  end.

(** Site A as a body gives it when the nights are written with an offset,
    2024-03-05T02:00:00+02:00 and so on: the same instants in a zone of
    their own. *)
Definition siteA_offset : Campsite :=
  {| CampsiteID := 1; CampsiteType := "STANDARD NONELECTRIC";
     Availabilities := {[ (Date 2024 3 5, FixedZone 1) := "Available";
                          (Date 2024 3 6, FixedZone 2) := "Available";
                          (Date 2024 3 7, FixedZone 3) := "Available" ]} |}.
Definition offsetCampground : Campground := {| Campsites := {[ "A" := siteA_offset ]} |}.

(** Sample collaborators for TestPub and logJobs. *)
Definition pubsub_ok : PubSub := {| pubsub_NewClient := None; publish_Get := λ _, None |}.
Definition lister_ok : JobLister :=
  {| lister_NewClient := None;
     lister_Next := [None; None; Some "rpc error: code = Unavailable"; None];
     lister_nil_client := Panicked "runtime error: invalid memory address or nil pointer dereference" |}.
(** An environment whose SendGrid client reports an error. *)
Definition env_mail_down : Env :=
  {| json_Unmarshal_MessageContent := λ _, (goodMessage, None);
     time_Parse := sample_time_Parse;
     http_Get := λ _, Some "{}";
     ioutil_ReadAll := λ body, (body, None);
     json_Unmarshal_Campground := λ _, (sampleCampground, None);
     range_Campsites := λ entries, entries;
     sendgrid_Send := λ _, inr "Post https://api.sendgrid.com/v3/mail/send: EOF";
     NewCloudSchedulerClient := None;
     scheduler_DeleteJob := λ _, None |}.
(** An environment that decodes [decoded] and parses no date. *)
Definition env_no_dates (decoded : MessageContent.t) : Env :=
  {| json_Unmarshal_MessageContent := λ _, (decoded, None);
     time_Parse := λ _, None;
     http_Get := λ _, Some "{}";
     ioutil_ReadAll := λ body, (body, None);
     json_Unmarshal_Campground := λ _, (sampleCampground, None);
     range_Campsites := λ entries, entries;
     sendgrid_Send := λ _, inl (202, "", "map[]");
     NewCloudSchedulerClient := None;
     scheduler_DeleteJob := λ _, None |}.
(** The payload of a stay that ends before it starts. *)
Definition backwardsMessage : MessageContent.t :=
  {| MessageContent.Name := "job-1"; MessageContent.Campground := "232447";
     MessageContent.Arrival := "2024-3-8"; MessageContent.Departure := "2024-3-5" |}.
Definition env_backwards : Env :=
  sampleEnv (backwardsMessage, None) (Some "{}") (sampleCampground, None).

(** * Properties *)

(** ** Durations *)

Lemma Hour_neq_0 : Hour ≠ 0.
Proof. done. Qed.

(** On a whole number of hours, [Hours] adds a zero to [float64(hour)]. *)
Lemma Hours_whole (h : Z) :
  Hours (h * Hour) = float64_add (float64_of_int h) (S754_zero false).
Proof.
  unfold Hours. rewrite Z.quot_mul by apply Hour_neq_0.
  rewrite Z.rem_mul by apply Hour_neq_0. reflexivity.
Qed.

Lemma Sub_in_range (a b : Time) :
  minDuration ≤ b - a ≤ maxDuration → Sub b a = b - a.
Proof.
  intros H. unfold Sub. cbv zeta.
  destruct (Z.ltb_spec (b - a) minDuration); [lia|].
  destruct (Z.ltb_spec maxDuration (b - a)); [lia|done].
Qed.

(** ** float64 on whole numbers of days *)

Lemma digits2_pos_bounds (p : positive) :
  2 ^ (Z.pos (digits2_pos p) - 1) ≤ Z.pos p < 2 ^ Z.pos (digits2_pos p).
Proof.
  induction p as [p IH|p IH|]; cbn [digits2_pos]; [| |done].
  - rewrite Pos2Z.inj_succ. change (Z.pos p~1) with (2 * Z.pos p + 1).
    replace (Z.succ (Z.pos (digits2_pos p)) - 1) with (Z.succ (Z.pos (digits2_pos p) - 1)) by lia.
    rewrite !Z.pow_succ_r by lia.
    revert IH. generalize (2 ^ (Z.pos (digits2_pos p) - 1)) (2 ^ Z.pos (digits2_pos p)). lia.
  - rewrite Pos2Z.inj_succ. change (Z.pos p~0) with (2 * Z.pos p).
    replace (Z.succ (Z.pos (digits2_pos p)) - 1) with (Z.succ (Z.pos (digits2_pos p) - 1)) by lia.
    rewrite !Z.pow_succ_r by lia.
    revert IH. generalize (2 ^ (Z.pos (digits2_pos p) - 1)) (2 ^ Z.pos (digits2_pos p)). lia.
Qed.

Lemma digits2_pos_unique (p : positive) (d : Z) :
  2 ^ (d - 1) ≤ Z.pos p < 2 ^ d → Z.pos (digits2_pos p) = d.
Proof.
  intros Hd. pose proof (digits2_pos_bounds p) as Hp.
  destruct (Z_lt_le_dec d 0) as [Hneg|Hnn].
  { rewrite (Z.pow_neg_r 2 d) in Hd by done. lia. }
  destruct (Z.lt_trichotomy (Z.pos (digits2_pos p)) d) as [Hlt|[Heq|Hgt]]; [|done|].
  - pose proof (Z.pow_le_mono_r 2 (Z.pos (digits2_pos p)) (d - 1)). lia.
  - pose proof (Z.pow_le_mono_r 2 d (Z.pos (digits2_pos p) - 1)). lia.
Qed.

(** A mantissa of exactly 53 bits is not rounded. *)
Lemma binary_round_aux_53 (s : bool) (m : positive) (e : Z) :
  2 ^ 52 ≤ Z.pos m < 2 ^ 53 → -1074 ≤ e ≤ 971 →
  binary_round_aux 53 1024 s (Z.pos m) e loc_Exact = S754_finite s m e.
Proof.
  intros Hm He. pose proof (digits2_pos_unique m 53 Hm) as Hd.
  assert (shr_fexp 53 1024 (Z.pos m) e loc_Exact
          = ({| shr_m := Z.pos m; shr_r := false; shr_s := false |}, e)) as Hshr.
  { unfold shr_fexp, Zdigits2, fexp, emin. rewrite Hd.
    replace (Z.max (53 + e - 53) (3 - 1024 - 53) - e) with 0 by lia. done. }
  unfold binary_round_aux. rewrite Hshr. cbn [shr_m loc_of_shr_record round_nearest_even].
  rewrite Hshr. cbn [shr_m].
  destruct (Z.leb_spec e (1024 - 53)); [done|lia].
Qed.

(** An even mantissa of 54 bits loses its last bit, exactly. *)
Lemma binary_round_aux_54 (s : bool) (m : positive) (e : Z) :
  2 ^ 52 ≤ Z.pos m < 2 ^ 53 → -1075 ≤ e ≤ 970 →
  binary_round_aux 53 1024 s (Z.pos m~0) e loc_Exact = S754_finite s m (e + 1).
Proof.
  intros Hm He. pose proof (digits2_pos_unique m 53 Hm) as Hd.
  assert (Z.pos (digits2_pos m~0) = 54) as Hd'.
  { apply digits2_pos_unique. change (Z.pos m~0) with (2 * Z.pos m).
    change (2 ^ (54 - 1)) with (2 * 2 ^ 52). change (2 ^ 54) with (2 * 2 ^ 53). lia. }
  assert (shr_fexp 53 1024 (Z.pos m~0) e loc_Exact
          = ({| shr_m := Z.pos m; shr_r := false; shr_s := false |}, e + 1)) as Hshr.
  { unfold shr_fexp, Zdigits2, fexp, emin. rewrite Hd'.
    replace (Z.max (54 + e - 53) (3 - 1024 - 53) - e) with 1 by lia. done. }
  assert (shr_fexp 53 1024 (Z.pos m) (e + 1) loc_Exact
          = ({| shr_m := Z.pos m; shr_r := false; shr_s := false |}, e + 1)) as Hshr'.
  { unfold shr_fexp, Zdigits2, fexp, emin. rewrite Hd.
    replace (Z.max (53 + (e + 1) - 53) (3 - 1024 - 53) - (e + 1)) with 0 by lia. done. }
  unfold binary_round_aux. rewrite Hshr. cbn [shr_m loc_of_shr_record round_nearest_even].
  rewrite Hshr'. cbn [shr_m].
  destruct (Z.leb_spec (e + 1) (1024 - 53)); [done|lia].
Qed.

Lemma pos_iter_xO (p q : positive) :
  Z.pos (Pos.iter xO p q) = Z.pos p * 2 ^ Z.pos q.
Proof.
  induction q as [|q IH] using Pos.peano_ind.
  - cbn [Pos.iter]. change (Z.pos p~0) with (2 * Z.pos p). lia.
  - rewrite Pos.iter_succ, Pos2Z.inj_succ, Z.pow_succ_r by lia.
    change (Z.pos (Pos.iter xO p q)~0) with (2 * Z.pos (Pos.iter xO p q)). lia.
Qed.

(** [float64(n)] for 0 < n < 2^53: the mantissa is [n] moved up to 53
    bits, nothing is lost. *)
Lemma float64_of_int_pos (p : positive) :
  Z.pos p < 2 ^ 53 →
  ∃ (m : positive) (e : Z),
    float64_of_int (Z.pos p) = S754_finite false m e
    ∧ 2 ^ 52 ≤ Z.pos m < 2 ^ 53 ∧ -52 ≤ e ≤ 0 ∧ Z.pos m = Z.pos p * 2 ^ (- e).
Proof.
  intros Hp. pose proof (digits2_pos_bounds p) as Hd.
  set (d := Z.pos (digits2_pos p)) in *.
  assert (1 ≤ d ≤ 53) as Hd53.
  { split; [unfold d; lia|]. destruct (Z_lt_le_dec 53 d) as [Hgt|]; [|done].
    pose proof (Z.pow_le_mono_r 2 53 (d - 1)). lia. }
  unfold float64_of_int, binary_normalize, binary_round, shl_align, fexp, emin.
  fold d. replace (Z.max (d + 0 - 53) (3 - 1024 - 53) - 0) with (d - 53) by lia.
  replace (Z.max (d + 0 - 53) (3 - 1024 - 53)) with (d - 53) by lia.
  destruct (d - 53) as [|q|q] eqn:Hq; [|lia|].
  - exists p, 0. assert (d = 53) as Hd' by lia. rewrite Hd' in Hd.
    rewrite binary_round_aux_53 by (done || lia). repeat split; try done; lia.
  - exists (Pos.iter xO p q), (Z.neg q).
    assert (Z.pos q = 53 - d) as Hq' by lia.
    assert (2 ^ 52 ≤ Z.pos (Pos.iter xO p q) < 2 ^ 53) as Hm.
    { assert (2 ^ 52 = 2 ^ (d - 1) * 2 ^ (53 - d)) as ->
        by (rewrite <- Z.pow_add_r by lia; f_equal; lia).
      assert (2 ^ 53 = 2 ^ d * 2 ^ (53 - d)) as ->
        by (rewrite <- Z.pow_add_r by lia; f_equal; lia).
      rewrite pos_iter_xO, Hq'.
      assert (0 < 2 ^ (53 - d)) by (apply Z.pow_pos_nonneg; lia).
      split; [apply Z.mul_le_mono_nonneg_r; lia|apply Z.mul_lt_mono_pos_r; lia]. }
    rewrite binary_round_aux_53 by (done || lia).
    repeat split; try done; try lia. by rewrite pos_iter_xO.
Qed.

(** Dividing [float64(24k)] by 24 and dropping the fraction gives [k]. *)
Lemma float64_div_24 (m1 : positive) (e1 k : Z) :
  1 ≤ k → 2 ^ 52 ≤ Z.pos m1 < 2 ^ 53 → -52 ≤ e1 ≤ 0 →
  Z.pos m1 = 24 * k * 2 ^ (- e1) →
  int_of_float64 (float64_div (S754_finite false m1 e1) (float64_of_int 24)) = k.
Proof.
  intros Hk Hm1 He1 Hval.
  change (float64_of_int 24) with (S754_finite false 6755399441055744 (-48)).
  pose proof (digits2_pos_unique m1 53 Hm1) as Hd1.
  set (X := k * 2 ^ (- e1)) in *.
  assert (0 < 2 ^ (- e1)) as Hpow by (apply Z.pow_pos_nonneg; lia).
  assert (Z.pos m1 = 24 * X) as HX by (unfold X; lia).
  unfold float64_div, SFdiv, SFdiv_core_binary, Zdigits2, fexp, emin. rewrite Hd1.
  change (Z.pos (digits2_pos 6755399441055744)) with 53.
  replace (Z.min (Z.max (53 + e1 - (53 + -48) - 53) (3 - 1024 - 53)) (e1 - -48))
    with (e1 - 5) by lia.
  replace (e1 - -48 - (e1 - 5)) with 53 by lia.
  rewrite Z.shiftl_mul_pow2 by lia.
  pose proof (Z_div_mod (Z.pos m1 * 2 ^ 53) 6755399441055744 eq_refl) as Hdiv.
  destruct (Z.div_eucl (Z.pos m1 * 2 ^ 53) 6755399441055744) as [q r].
  change (2 ^ 53) with 9007199254740992 in *. change (2 ^ 52) with 4503599627370496 in *.
  assert (q = 32 * X ∧ r = 0) as [-> ->] by lia.
  change (new_location 6755399441055744 0) with loc_Exact.
  assert (∀ j, 0 ≤ j → 2 ^ (j - e1) = 2 ^ j * 2 ^ (- e1)) as Hsplit.
  { intros j Hj. replace (j - e1) with (j + - e1) by lia. apply Z.pow_add_r; lia. }
  destruct (Z_lt_le_dec (32 * X) 9007199254740992) as [Hsmall|Hbig].
  - destruct (32 * X) as [|mq|mq] eqn:HQ; [lia| |lia].
    rewrite binary_round_aux_53
      by (change (2 ^ 53) with 9007199254740992;
          change (2 ^ 52) with 4503599627370496; lia).
    cbn [int_of_float64]. destruct (Z.leb_spec 0 (e1 - 5)); [lia|].
    rewrite Z.shiftr_div_pow2 by lia. replace (- (e1 - 5)) with (5 - e1) by lia.
    rewrite Hsplit by lia. rewrite <- HQ. unfold X.
    replace (32 * (k * 2 ^ (- e1))) with (k * (2 ^ 5 * 2 ^ (- e1))) by (change (2 ^ 5) with 32; lia).
    apply Z.div_mul. change (2 ^ 5) with 32. lia.
  - destruct (32 * X) as [|[mq|mq|]|mq] eqn:HQ; try lia.
    rewrite binary_round_aux_54
      by (change (2 ^ 53) with 9007199254740992;
          change (2 ^ 52) with 4503599627370496; lia).
    cbn [int_of_float64]. destruct (Z.leb_spec 0 (e1 - 5 + 1)); [lia|].
    rewrite Z.shiftr_div_pow2 by lia. replace (- (e1 - 5 + 1)) with (4 - e1) by lia.
    rewrite Hsplit by lia.
    assert (Z.pos mq = 16 * X) as -> by lia. unfold X.
    replace (16 * (k * 2 ^ (- e1))) with (k * (2 ^ 4 * 2 ^ (- e1))) by (change (2 ^ 4) with 16; lia).
    apply Z.div_mul. change (2 ^ 4) with 16. lia.
Qed.

(** The loop bound is exact on every whole number of days below 2^53
    hours. *)
Lemma int_of_float64_days (k : Z) :
  1 ≤ k → 24 * k < 2 ^ 53 →
  int_of_float64
    (float64_div (float64_add (float64_of_int (24 * k)) (S754_zero false))
                 (float64_of_int 24)) = k.
Proof.
  intros Hk Hlt. destruct (24 * k) as [|p|p] eqn:Hp; [lia| |lia].
  destruct (float64_of_int_pos p Hlt) as (m & e & -> & Hm & He & Hval).
  change (float64_add (S754_finite false m e) (S754_zero false))
    with (S754_finite false m e).
  apply float64_div_24; try done. lia.
Qed.

(** ** The loop bound of getDates *)

Lemma dayCount_of_Sub (k : Z) (a b : Time) :
  1 ≤ k ≤ maxDays → Sub b a = k * nsPerDay → dayCount a b = k.
Proof.
  intros Hk HSub. unfold dayCount. rewrite HSub.
  replace (k * nsPerDay) with (24 * k * Hour) by (unfold nsPerDay; lia).
  rewrite Hours_whole. apply int_of_float64_days; [lia|].
  change (2 ^ 53) with 9007199254740992. unfold maxDays in Hk. lia.
Qed.

(** Towards the past the bound is never positive: the sign of the
    difference survives the conversions. *)
Lemma binary_round_aux_signed_down (m e : Z) (l : location) :
  signed_down (binary_round_aux 53 1024 true m e l).
Proof.
  unfold binary_round_aux.
  destruct (shr_fexp 53 1024 m e l) as [mrs' e'].
  destruct (shr_fexp 53 1024 _ e' loc_Exact) as [mrs'' e''].
  destruct (shr_m mrs''); try done.
  by destruct (e'' <=? 1024 - 53).
Qed.

Lemma float64_of_int_signed_down (p : positive) :
  signed_down (float64_of_int (Z.neg p)).
Proof.
  unfold float64_of_int, binary_normalize, binary_round.
  destruct (shl_align p 0 _) as [mz ez]. apply binary_round_aux_signed_down.
Qed.

Lemma float64_div_24_signed_down (x : float64) :
  signed_down x →
  signed_down (float64_div (float64_add x (S754_zero false)) (float64_of_int 24)).
Proof.
  change (float64_of_int 24) with (S754_finite false 6755399441055744 (-48)).
  destruct x as [[]|s| |s m e]; simpl; try done; intros ->; [done|].
  unfold float64_div, SFdiv.
  destruct (SFdiv_core_binary 53 1024 (Z.pos m) e 6755399441055744 (-48)) as [[mq eq] lq].
  apply binary_round_aux_signed_down.
Qed.

Lemma int_of_float64_signed_down (x : float64) :
  signed_down x → int_of_float64 x ≤ 0.
Proof.
  destruct x as [s|s| |s m e]; simpl; try done.
  intros ->. destruct (0 <=? e).
  - pose proof (Z.shiftl_nonneg (Z.pos m) e). lia.
  - pose proof (Z.shiftr_nonneg (Z.pos m) (- e)). lia.
Qed.

Lemma dayCount_nonpositive (k : Z) (a b : Time) :
  k ≤ 0 → Sub b a = k * nsPerDay → dayCount a b ≤ 0.
Proof.
  intros Hk HSub. unfold dayCount. rewrite HSub.
  replace (k * nsPerDay) with (24 * k * Hour) by (unfold nsPerDay; lia).
  rewrite Hours_whole. destruct k as [|p|p]; [done|lia|].
  change (24 * Z.neg p) with (Z.neg (24 * p)).
  apply int_of_float64_signed_down, float64_div_24_signed_down,
    float64_of_int_signed_down.
Qed.

Lemma dayCount_saturated_down (a b : Time) :
  b - a < minDuration → dayCount a b = - maxDays.
Proof.
  intros H. unfold dayCount, Sub. cbv zeta.
  destruct (Z.ltb_spec (b - a) minDuration); [|lia]. by vm_compute.
Qed.

Lemma dayCount_saturated_up (a b : Time) :
  maxDuration < b - a → dayCount a b = maxDays.
Proof.
  intros H. unfold dayCount, Sub. cbv zeta.
  destruct (Z.ltb_spec (b - a) minDuration); [unfold minDuration, maxDuration in *; lia|].
  destruct (Z.ltb_spec maxDuration (b - a)); [|lia]. by vm_compute.
Qed.

(** ** getDates *)

Lemma ParseDuration_hours_day (day : Z) :
  0 ≤ day < maxDays → (ParseDuration_hours (24 * day)).1 = day * nsPerDay.
Proof.
  intros H. unfold ParseDuration_hours.
  destruct (Z.leb_spec minDuration (24 * day * Hour));
    destruct (Z.leb_spec (24 * day * Hour) maxDuration); simpl;
    unfold nsPerDay, Hour, minDuration, maxDuration, maxDays in *; lia.
Qed.

Lemma dayCount_le_maxDays (a b : Time) :
  calendarDate a → calendarDate b → dayCount a b ≤ maxDays.
Proof.
  intros [x ->] [y ->].
  destruct (Z_lt_le_dec maxDuration (y * nsPerDay - x * nsPerDay)) as [Hup|Hup].
  { by rewrite dayCount_saturated_up. }
  destruct (Z_lt_le_dec (y * nsPerDay - x * nsPerDay) minDuration) as [Hdn|Hdn].
  { rewrite dayCount_saturated_down by done. done. }
  assert (Sub (y * nsPerDay) (x * nsPerDay) = (y - x) * nsPerDay) as HSub.
  { rewrite Sub_in_range by lia. lia. }
  destruct (Z_lt_le_dec 0 (y - x)) as [Hpos|Hneg].
  - rewrite (dayCount_of_Sub (y - x)); [|split; [lia|]|done];
      unfold nsPerDay, Hour, maxDuration, maxDays in *; lia.
  - pose proof (dayCount_nonpositive (y - x) _ _ Hneg HSub). unfold maxDays. lia.
Qed.

(** The list getDates builds, once the loop bound is known to be in range. *)
Lemma getDates_unfold (startDate endDate : Time) :
  calendarDate startDate → calendarDate endDate →
  getDates startDate endDate
  = (λ day : Z, addDays startDate day) <$> seqZ 0 (dayCount startDate endDate).
Proof.
  intros Hs He. unfold getDates. apply list_fmap_ext. intros i day Hin.
  apply list_elem_of_lookup_2, elem_of_seqZ in Hin. pose proof (dayCount_le_maxDays _ _ Hs He).
  cbv zeta. unfold Add, addDays. rewrite ParseDuration_hours_day; [done|lia].
Qed.

Lemma dayCount_calendar (arrival departure : Time) :
  calendarDate arrival → calendarDate departure → arrival < departure →
  daysBetween arrival departure ≤ maxDays →
  dayCount arrival departure = daysBetween arrival departure.
Proof.
  intros [x ->] [y ->] Hlt Hmax. unfold daysBetween in *.
  replace (y * nsPerDay - x * nsPerDay) with ((y - x) * nsPerDay) in * by lia.
  rewrite Z.div_mul in * by done.
  apply dayCount_of_Sub; [unfold nsPerDay, Hour in *; lia|].
  rewrite Sub_in_range; unfold nsPerDay, Hour, minDuration, maxDuration, maxDays in *; lia.
Qed.

(** C3 (as amended): for calendar dates with arrival strictly before
    departure and at most [maxDays] = 106751 days apart (the most a
    time.Duration can hold), getDates returns exactly one date per day of the
    stay: its length is the number of days from arrival to departure, its
    element at index i is arrival plus i days, so that it starts at arrival
    and ends at departure minus one day, and departure is not in it. *)
Theorem getDates_nights (arrival departure : Time) :
  calendarDate arrival → calendarDate departure → arrival < departure →
  daysBetween arrival departure ≤ maxDays →
  Z.of_nat (length (getDates arrival departure)) = daysBetween arrival departure
  ∧ (∀ i : Z, 0 ≤ i < daysBetween arrival departure →
       getDates arrival departure !! Z.to_nat i = Some (addDays arrival i))
  ∧ head (getDates arrival departure) = Some arrival
  ∧ last (getDates arrival departure) = Some (addDays departure (-1))
  ∧ departure ∉ getDates arrival departure.
Proof.
  intros Ha Hd Hlt Hmax.
  rewrite (getDates_unfold _ _ Ha Hd), (dayCount_calendar _ _ Ha Hd Hlt Hmax).
  destruct Ha as [x ->], Hd as [y ->].
  assert (daysBetween (x * nsPerDay) (y * nsPerDay) = y - x) as Hn.
  { unfold daysBetween.
    replace (y * nsPerDay - x * nsPerDay) with ((y - x) * nsPerDay) by lia.
    by rewrite Z.div_mul. }
  rewrite Hn in *. assert (0 < y - x) as Hpos by (unfold nsPerDay, Hour in *; lia).
  assert (∀ i : Z, 0 ≤ i < y - x →
    ((λ day : Z, addDays (x * nsPerDay) day) <$> seqZ 0 (y - x)) !! Z.to_nat i
    = Some (addDays (x * nsPerDay) i)) as Hnth.
  { intros i Hi. rewrite list_lookup_fmap, lookup_seqZ_lt by lia.
    simpl. by rewrite Z2Nat.id by lia. }
  repeat split.
  - rewrite length_fmap, length_seqZ. lia.
  - exact Hnth.
  - rewrite head_lookup. change 0%nat with (Z.to_nat 0).
    rewrite (Hnth 0) by lia. unfold addDays. f_equal. lia.
  - rewrite last_lookup, length_fmap, length_seqZ.
    replace (Init.Nat.pred (Z.to_nat (y - x))) with (Z.to_nat (y - x - 1)) by lia.
    rewrite Hnth by lia. unfold addDays. f_equal. lia.
  - intros Hin. apply list_elem_of_fmap in Hin as (day & Heq & Hday).
    apply elem_of_seqZ in Hday. unfold addDays in Heq.
    unfold nsPerDay, Hour in *. lia.
Qed.

Lemma getDates_nights_witness :
  calendarDate (Date 2024 3 5) ∧ calendarDate (Date 2024 3 8)
  ∧ Date 2024 3 5 < Date 2024 3 8
  ∧ daysBetween (Date 2024 3 5) (Date 2024 3 8) ≤ maxDays
  ∧ Z.of_nat (length (getDates (Date 2024 3 5) (Date 2024 3 8))) = 3
  ∧ head (getDates (Date 2024 3 5) (Date 2024 3 8)) = Some (Date 2024 3 5)
  ∧ last (getDates (Date 2024 3 5) (Date 2024 3 8)) = Some (Date 2024 3 7).
Proof.
  assert (calendarDate (Date 2024 3 5)) as Ha by (eexists; reflexivity).
  assert (calendarDate (Date 2024 3 8)) as Hd by (eexists; reflexivity).
  assert (Date 2024 3 5 < Date 2024 3 8) as Hlt by (vm_compute; reflexivity).
  assert (daysBetween (Date 2024 3 5) (Date 2024 3 8) ≤ maxDays) as Hmax
    by (vm_compute; discriminate).
  destruct (getDates_nights _ _ Ha Hd Hlt Hmax) as (Hlen & _ & Hhd & Hlast & _).
  split; [exact Ha|]. split; [exact Hd|]. split; [exact Hlt|]. split; [exact Hmax|].
  split; [exact Hlen|]. split; [exact Hhd|]. exact Hlast.
Defined.

(** C3 as stated fails: 0001-01-01, the zero Time that an unparseable
    arrival string is replaced by, and 2024-03-08 are 738952 days apart and
    getDates returns 106751 dates. *)
Lemma getDates_far_apart :
  calendarDate (Date 1 1 1) ∧ calendarDate (Date 2024 3 8)
  ∧ Date 1 1 1 < Date 2024 3 8
  ∧ daysBetween (Date 1 1 1) (Date 2024 3 8) = 738952
  ∧ Z.of_nat (length (getDates (Date 1 1 1) (Date 2024 3 8))) = 106751
  ∧ Z.of_nat (length (getDates (Date 1 1 1) (Date 2024 3 8)))
    ≠ daysBetween (Date 1 1 1) (Date 2024 3 8).
Proof.
  assert (Z.of_nat (length (getDates (Date 1 1 1) (Date 2024 3 8))) = 106751) as Hlen.
  { unfold getDates. rewrite length_fmap, length_seqZ. by vm_compute. }
  split; [eexists; reflexivity|]. split; [eexists; reflexivity|].
  split; [vm_compute; reflexivity|]. split; [vm_compute; reflexivity|].
  split; [exact Hlen|]. rewrite Hlen. vm_compute. discriminate.
Qed.

(** Beyond [maxDays] the list stops at [maxDays] dates. *)
Lemma getDates_length_saturated (arrival departure : Time) :
  maxDuration < departure - arrival →
  Z.of_nat (length (getDates arrival departure)) = maxDays.
Proof.
  intros H. unfold getDates. rewrite length_fmap, length_seqZ.
  by rewrite dayCount_saturated_up.
Qed.

(** C4: for calendar dates with departure on or before arrival, getDates
    returns the empty sequence. *)
Theorem getDates_no_nights (arrival departure : Time) :
  calendarDate arrival → calendarDate departure → departure ≤ arrival →
  getDates arrival departure = [].
Proof.
  intros [x ->] [y ->] Hle. unfold getDates.
  assert (dayCount (x * nsPerDay) (y * nsPerDay) ≤ 0) as Hn.
  { destruct (Z_lt_le_dec (y * nsPerDay - x * nsPerDay) minDuration) as [Hdn|Hdn].
    - rewrite dayCount_saturated_down by done. done.
    - apply (dayCount_nonpositive (y - x)); [unfold nsPerDay, Hour in *; lia|].
      rewrite Sub_in_range; unfold maxDuration in *; lia. }
  destruct (dayCount (x * nsPerDay) (y * nsPerDay)) as [|p|p]; [done|lia|done].
Qed.

Lemma getDates_no_nights_witness :
  calendarDate (Date 2024 3 8) ∧ calendarDate (Date 2024 3 5)
  ∧ Date 2024 3 5 ≤ Date 2024 3 8
  ∧ getDates (Date 2024 3 8) (Date 2024 3 5) = [].
Proof.
  assert (calendarDate (Date 2024 3 8)) as Ha by (eexists; reflexivity).
  assert (calendarDate (Date 2024 3 5)) as Hd by (eexists; reflexivity).
  assert (Date 2024 3 5 ≤ Date 2024 3 8) as Hle by (vm_compute; discriminate).
  split; [exact Ha|]. split; [exact Hd|]. split; [exact Hle|].
  exact (getDates_no_nights _ _ Ha Hd Hle).
Defined.

(** ** getAvailableSites *)

Lemma index_Available (m : gmap (Z * Location) string) (date : Time) :
  index m date = "Available" ↔ m !! inUTC date = Some "Available".
Proof.
  unfold index. destruct (m !! inUTC date) as [label|]; simpl; [|done].
  split; [by intros ->|by intros [= ->]].
Qed.

Lemma fullyAvailable_Forall (site : Campsite) (dates : list Time) :
  fullyAvailable site dates
  ↔ Forall (λ date, Availabilities site !! inUTC date = Some "Available") dates.
Proof. unfold fullyAvailable. by rewrite Forall_forall. Qed.

(** What the loop over the nights does to [(count, campsiteNames)], from
    any index on: one append when every remaining night is "Available" and
    the last index is reached, nothing otherwise. *)
Lemma rangeDates_spec (site : Campsite) (siteID : string) (len_dates : Z)
    (rest : list Time) (idx : Z) (st : Z * list string) :
  idx + Z.of_nat (length rest) = len_dates →
  rangeDates site siteID len_dates idx rest st
  = if decide (rest ≠ [] ∧ Forall (λ date, Availabilities site !! inUTC date = Some "Available") rest)
    then (st.1 + 1, st.2 ++ [siteID]) else st.
Proof.
  revert idx st. induction rest as [|date rest IH]; intros idx st Hlen.
  { cbn [rangeDates]. by destruct (decide ([] ≠ [] ∧ _)) as [[H _]|_]. }
  cbn [rangeDates].
  destruct (decide (index (Availabilities site) date ≠ "Available")) as [Hlabel|Hlabel].
  { destruct (decide (date :: rest ≠ [] ∧ _)) as [[_ H]|_]; [|done].
    apply Forall_cons in H as [H _]. by apply index_Available in H. }
  assert (Availabilities site !! inUTC date = Some "Available") as Hdate.
  { apply index_Available.
    by destruct (decide (index (Availabilities site) date = "Available")). }
  destruct (Z.eqb_spec idx (len_dates - 1)) as [Hlast|Hmore].
  - destruct rest as [|date' rest]; [|simpl in Hlen; lia].
    cbn [rangeDates]. destruct (decide ([date] ≠ [] ∧ _)) as [_|H]; [done|].
    destruct H. split; [done|]. by constructor.
  - rewrite IH by (simpl in Hlen; lia).
    assert (rest ≠ []) as Hrest by (intros ->; simpl in Hlen; lia).
    destruct (decide (rest ≠ [] ∧ _)) as [H1|H1];
      destruct (decide (date :: rest ≠ [] ∧ _)) as [H2|H2]; try done.
    + destruct H2. split; [done|]. constructor; [done|]. by destruct H1.
    + destruct H1. split; [done|]. destruct H2 as [_ H2].
      by apply Forall_cons in H2 as [_ H2].
Qed.

Lemma rangeDates_no_dates (site : Campsite) (siteID : string) (len_dates idx : Z)
    (st : Z * list string) :
  rangeDates site siteID len_dates idx [] st = st.
Proof. reflexivity. Qed.

Lemma foldl_rangeDates (dates : list Time) (entries : list (string * Campsite))
    (st : Z * list string) :
  (foldl (λ st entry, rangeDates entry.2 entry.1 (Z.of_nat (length dates)) 0 dates st)
         st entries).2
  = st.2 ++ (filter (qualifying dates) entries).*1.
Proof.
  revert st. induction entries as [|entry entries IH]; intros st; simpl.
  { by rewrite app_nil_r. }
  rewrite IH, rangeDates_spec by lia. rewrite filter_cons.
  unfold qualifying at 2. destruct (decide _); simpl; [|done].
  by rewrite <- app_assoc.
Qed.

Lemma availableSitesOn_filter visit (campground : Campground) (dates : list Time) :
  availableSitesOn visit campground dates
  = (filter (qualifying dates) (visit (map_to_list (Campsites campground)))).*1.
Proof. unfold availableSitesOn. by rewrite foldl_rangeDates. Qed.

(** C1: for every campground and every non-empty sequence of nights, a site
    identifier is in the result exactly when the campground has that site and
    the site's map gives the label "Available" for every night, an absent
    entry not being a match (the map is read as Go reads it: an entry counts
    for a night when its key is that very Time, instant and Location); and no
    identifier is in the result twice. This holds of the loops on any such
    sequence, and of getAvailableSites whenever getDates gives that
    sequence. *)
Theorem availableSitesOn_iff visit (campground : Campground) (dates : list Time) :
  rangeOrder visit → dates ≠ [] →
  ((∀ siteID : string,
      siteID ∈ availableSitesOn visit campground dates
      ↔ ∃ site, Campsites campground !! siteID = Some site ∧ fullyAvailable site dates)
   ∧ NoDup (availableSitesOn visit campground dates))
  ∧ ∀ arrival departure : Time,
      getDates arrival departure = dates →
      (∀ siteID : string,
         siteID ∈ getAvailableSites visit campground arrival departure
         ↔ ∃ site, Campsites campground !! siteID = Some site
                   ∧ fullyAvailable site dates)
      ∧ NoDup (getAvailableSites visit campground arrival departure).
Proof.
  intros Hvisit Hdates. unfold rangeOrder in Hvisit.
  assert ((∀ siteID : string,
             siteID ∈ availableSitesOn visit campground dates
             ↔ ∃ site, Campsites campground !! siteID = Some site
                       ∧ fullyAvailable site dates)
          ∧ NoDup (availableSitesOn visit campground dates)) as Hloops.
  { rewrite availableSitesOn_filter. split.
    - intros siteID. rewrite list_elem_of_fmap. split.
      + intros ([siteID' site] & -> & Hin).
        apply list_elem_of_filter in Hin as [[_ Hq] Hin].
        rewrite Hvisit in Hin. apply elem_of_map_to_list in Hin.
        exists site. split; [done|]. by apply fullyAvailable_Forall.
      + intros (site & Hsite & Hq). exists (siteID, site). split; [done|].
        apply list_elem_of_filter. split.
        * split; [done|]. by apply fullyAvailable_Forall.
        * rewrite Hvisit. by apply elem_of_map_to_list.
    - eapply sublist_NoDup; [|apply fmap_sublist, sublist_filter].
      rewrite Hvisit. apply NoDup_fst_map_to_list. }
  split; [exact Hloops|]. intros arrival departure Hget.
  unfold getAvailableSites. rewrite Hget. exact Hloops.
Qed.

Lemma availableSitesOn_iff_witness :
  rangeOrder (λ entries, entries) ∧ sampleNights ≠ []
  ∧ getDates (Date 2024 3 5) (Date 2024 3 8) = sampleNights
  ∧ (∀ siteID : string,
       siteID ∈ getAvailableSites (λ entries, entries) sampleCampground
                  (Date 2024 3 5) (Date 2024 3 8)
       ↔ ∃ site, Campsites sampleCampground !! siteID = Some site
                 ∧ fullyAvailable site sampleNights)
  ∧ NoDup (getAvailableSites (λ entries, entries) sampleCampground
             (Date 2024 3 5) (Date 2024 3 8)).
Proof.
  assert (rangeOrder (λ entries, entries)) as Hvisit by (intros entries; reflexivity).
  assert (sampleNights ≠ []) as Hne by discriminate.
  assert (getDates (Date 2024 3 5) (Date 2024 3 8) = sampleNights) as Hget
    by (vm_compute; reflexivity).
  destruct (availableSitesOn_iff (λ entries, entries) sampleCampground sampleNights
              Hvisit Hne) as [_ Hstay].
  destruct (Hstay _ _ Hget) as [Hiff Hnodup].
  split; [exact Hvisit|]. split; [exact Hne|]. split; [exact Hget|].
  split; [exact Hiff|exact Hnodup].
Defined.

(** The scenario of the specification: site A is free on the three nights,
    site B is reserved on the second one. *)
Example availableSitesOn_scenario :
  getDates (Date 2024 3 5) (Date 2024 3 8) = sampleNights
  ∧ availableSitesOn (λ entries, entries) sampleCampground sampleNights = ["A"]
  ∧ getAvailableSites (λ entries, entries) sampleCampground (Date 2024 3 5) (Date 2024 3 8)
    = ["A"].
Proof. repeat split; vm_compute; reflexivity. Qed.

(** Nights that the body writes with an offset are other keys than the
    ones the loop looks up: the site is not found. *)
Example availableSitesOn_offset_keys :
  availableSitesOn (λ entries, entries) offsetCampground sampleNights = []
  ∧ getAvailableSites (λ entries, entries) offsetCampground (Date 2024 3 5) (Date 2024 3 8)
    = [].
Proof. split; vm_compute; reflexivity. Qed.

(** C2: on an empty sequence of nights the result is empty, whatever the
    campground holds, and so is the result of getAvailableSites whenever
    getDates gives no night. *)
Theorem availableSitesOn_no_nights visit (campground : Campground) :
  availableSitesOn visit campground [] = []
  ∧ ∀ arrival departure : Time,
      getDates arrival departure = [] →
      getAvailableSites visit campground arrival departure = [].
Proof.
  assert (availableSitesOn visit campground [] = []) as Hnil.
  { rewrite availableSitesOn_filter.
    induction (visit (map_to_list (Campsites campground))) as [|entry entries IH]; [done|].
    rewrite filter_cons. destruct (decide (qualifying [] entry)) as [[H _]|_]; done. }
  split; [done|]. intros arrival departure Hdates.
  unfold getAvailableSites. by rewrite Hdates.
Qed.

Lemma availableSitesOn_no_nights_witness :
  getDates (Date 2024 3 8) (Date 2024 3 5) = []
  ∧ availableSitesOn (λ entries, entries) sampleCampground [] = []
  ∧ getAvailableSites (λ entries, entries) sampleCampground (Date 2024 3 8) (Date 2024 3 5)
    = [].
Proof.
  assert (getDates (Date 2024 3 8) (Date 2024 3 5) = []) as Hdates
    by (vm_compute; reflexivity).
  destruct (availableSitesOn_no_nights (λ entries, entries) sampleCampground)
    as [Hnil Hget].
  split; [exact Hdates|]. split; [exact Hnil|]. exact (Hget _ _ Hdates).
Defined.

(** ** ScrapeAvailability *)

Lemma ScrapeAvailability_response (env : Env) (campgroundID body : string)
    (arrival departure : Time) :
  http_Get env (start_url campgroundID arrival) = Some body →
  ScrapeAvailability env campgroundID arrival departure
  = ([EvHttpGet (start_url campgroundID arrival)],
     Returned (getAvailableSites (range_Campsites env) (decoded_campground env body)
                                 arrival departure)).
Proof. intros Hget. unfold ScrapeAvailability. cbv zeta. by rewrite Hget. Qed.

Lemma ScrapeAvailability_no_response (env : Env) (campgroundID : string)
    (arrival departure : Time) :
  http_Get env (start_url campgroundID arrival) = None →
  ScrapeAvailability env campgroundID arrival departure
  = ([EvHttpGet (start_url campgroundID arrival)],
     Panicked "runtime error: invalid memory address or nil pointer dereference").
Proof. intros Hget. unfold ScrapeAvailability. cbv zeta. by rewrite Hget. Qed.

Lemma ScrapeAvailability_trace (env : Env) (campgroundID : string)
    (arrival departure : Time) :
  (ScrapeAvailability env campgroundID arrival departure).1
  = [EvHttpGet (start_url campgroundID arrival)].
Proof.
  destruct (http_Get env (start_url campgroundID arrival)) as [body|] eqn:Hget.
  - by rewrite (ScrapeAvailability_response _ _ body).
  - by rewrite ScrapeAvailability_no_response.
Qed.

(** ** ScrapeFromMessage *)

Lemma Name_guard (name : string) :
  (Z.of_nat (String.length name) <=? 0) = true ↔ name = "".
Proof.
  destruct name as [|c name]; simpl String.length; [done|].
  split; [|done]. intros H. apply Z.leb_le in H. lia.
Qed.

Lemma nonempty_guard {A} (l : list A) :
  (0 <? Z.of_nat (length l)) = true ↔ l ≠ [].
Proof. destruct l; simpl length; [done|]. split; [done|]. intros _. apply Z.ltb_lt. lia. Qed.

Lemma ScrapeFromMessage_guard (env : Env) (m_Data : string) (mc : MessageContent.t)
    (err : option error) :
  json_Unmarshal_MessageContent env m_Data = (mc, err) →
  MessageContent.Name mc = "" →
  ScrapeFromMessage env m_Data = (decode_log err, Returned (Some "this is an error")).
Proof.
  intros Hdecode Hname. unfold ScrapeFromMessage. rewrite Hdecode.
  apply Name_guard in Hname. rewrite Hname. by destruct err.
Qed.

Lemma ScrapeFromMessage_fetch_panics (env : Env) (m_Data : string)
    (mc : MessageContent.t) (err : option error) (tr : list event) (reason : string) :
  json_Unmarshal_MessageContent env m_Data = (mc, err) →
  MessageContent.Name mc ≠ "" →
  ScrapeAvailability env (MessageContent.Campground mc) (run_arrival env mc)
                     (run_departure env mc) = (tr, Panicked reason) →
  ScrapeFromMessage env m_Data = (decode_log err ++ tr, Panicked reason).
Proof.
  intros Hdecode Hname Hfetch. unfold ScrapeFromMessage. rewrite Hdecode.
  destruct (Z.of_nat (String.length (MessageContent.Name mc)) <=? 0) eqn:Hguard.
  { by apply Name_guard in Hguard. }
  fold (run_arrival env mc) (run_departure env mc). cbv zeta. rewrite Hfetch.
  by destruct err.
Qed.

Lemma ScrapeFromMessage_after_fetch (env : Env) (m_Data : string)
    (mc : MessageContent.t) (err : option error) (tr : list event)
    (available : list string) :
  json_Unmarshal_MessageContent env m_Data = (mc, err) →
  MessageContent.Name mc ≠ "" →
  ScrapeAvailability env (MessageContent.Campground mc) (run_arrival env mc)
                     (run_departure env mc) = (tr, Returned available) →
  ScrapeFromMessage env m_Data
  = (decode_log err ++ tr
       ++ (if decide (available = []) then [] else notify_and_cancel env mc available),
     Returned None).
Proof.
  intros Hdecode Hname Hfetch. unfold ScrapeFromMessage. rewrite Hdecode.
  destruct (Z.of_nat (String.length (MessageContent.Name mc)) <=? 0) eqn:Hguard.
  { by apply Name_guard in Hguard. }
  fold (run_arrival env mc) (run_departure env mc). cbv zeta. rewrite Hfetch.
  destruct available as [|site sites].
  { destruct err; unfold mbind, M_bind, mret, M_ret, emit; cbn; by rewrite ?app_nil_r. }
  destruct (decide (site :: sites = [])) as [|_]; [done|]. unfold notify_and_cancel.
  destruct (sendEmail env _ (site :: sites) _ _) as [tr1 [[]|r1]] eqn:Hsend.
  2:{ exfalso. revert Hsend. unfold sendEmail.
      destruct (sendgrid_Send env _) as [[[? ?] ?]|?]; discriminate. }
  destruct (deleteJob env (MessageContent.Name mc)) as [tr2 [e2|r2]] eqn:Hdel.
  2:{ exfalso. revert Hdel. unfold deleteJob.
      destruct (NewCloudSchedulerClient env); [discriminate|].
      destruct (scheduler_DeleteJob env _); discriminate. }
  destruct err; unfold mbind, M_bind, mret, M_ret, emit;
    cbn -[sendEmail deleteJob]; rewrite Hsend; cbn -[deleteJob]; rewrite ?Hdel;
    cbn; by rewrite ?app_nil_r.
Qed.

(** ** What a trace shows *)

Lemma collaborator_calls_app (tr1 tr2 : list event) :
  collaborator_calls (tr1 ++ tr2) = collaborator_calls tr1 ++ collaborator_calls tr2.
Proof. apply List.filter_app. Qed.

Lemma deleteJob_calls_app (tr1 tr2 : list event) :
  deleteJob_calls (tr1 ++ tr2) = deleteJob_calls tr1 ++ deleteJob_calls tr2.
Proof. apply omap_app. Qed.

Lemma scheduler_requests_app (tr1 tr2 : list event) :
  scheduler_requests (tr1 ++ tr2) = scheduler_requests tr1 ++ scheduler_requests tr2.
Proof. apply omap_app. Qed.

Lemma decode_log_quiet (err : option error) :
  collaborator_calls (decode_log err) = []
  ∧ deleteJob_calls (decode_log err) = []
  ∧ scheduler_requests (decode_log err) = []
  ∧ List.filter is_downstream (decode_log err) = [].
Proof. by destruct err. Qed.

Lemma sendEmail_trace (env : Env) (id : string) (availableSites : list string)
    (arrival departure : string) :
  collaborator_calls (sendEmail env id availableSites arrival departure).1
  = [EvSendEmail id availableSites arrival departure]
  ∧ deleteJob_calls (sendEmail env id availableSites arrival departure).1 = []
  ∧ scheduler_requests (sendEmail env id availableSites arrival departure).1 = [].
Proof. unfold sendEmail. by destruct (sendgrid_Send env _) as [[[? ?] ?]|?]. Qed.

Lemma deleteJob_trace (env : Env) (jobName : string) :
  collaborator_calls (deleteJob env jobName).1 = [EvDeleteJob jobName]
  ∧ deleteJob_calls (deleteJob env jobName).1 = [jobName]
  ∧ scheduler_requests (deleteJob env jobName).1
    = match NewCloudSchedulerClient env with
      | None => ["projects/camp-finder-258618/locations/us-west2/jobs/" +:+ jobName]
      | Some _ => []
      end.
Proof.
  unfold deleteJob. destruct (NewCloudSchedulerClient env); [done|].
  by destruct (scheduler_DeleteJob env _).
Qed.

(** C8: for every request that passes the guard on Name and whose fetch
    and match step returns [available]: when [available] is not empty,
    sendEmail is called exactly once, with the campground, the matched sites
    and the formatted dates, and then deleteJob exactly once; when it is
    empty, neither is called, no request reaches the scheduler, and the job
    stays scheduled. Either way the run returns nil. *)
Theorem ScrapeFromMessage_notifies_then_cancels (env : Env) (m_Data : string)
    (mc : MessageContent.t) (err : option error) (tr : list event)
    (available : list string) :
  json_Unmarshal_MessageContent env m_Data = (mc, err) →
  MessageContent.Name mc ≠ "" →
  ScrapeAvailability env (MessageContent.Campground mc) (run_arrival env mc)
                     (run_departure env mc) = (tr, Returned available) →
  (ScrapeFromMessage env m_Data).2 = Returned None
  ∧ (available ≠ [] →
       collaborator_calls (ScrapeFromMessage env m_Data).1
       = [EvSendEmail (MessageContent.Campground mc) available
            (Format_MonJan2 (run_arrival env mc)) (Format_MonJan2 (run_departure env mc));
          EvDeleteJob (MessageContent.Name mc)])
  ∧ (available = [] →
       collaborator_calls (ScrapeFromMessage env m_Data).1 = []
       ∧ scheduler_requests (ScrapeFromMessage env m_Data).1 = []).
Proof.
  intros Hdecode Hname Hfetch.
  rewrite (ScrapeFromMessage_after_fetch _ _ _ _ _ _ Hdecode Hname Hfetch).
  pose proof (ScrapeAvailability_trace env (MessageContent.Campground mc)
                (run_arrival env mc) (run_departure env mc)) as Htr.
  rewrite Hfetch in Htr. simpl in Htr. subst tr.
  destruct (decode_log_quiet err) as (Hc & _ & Hs & _).
  split; [done|]. split.
  - intros Hne. destruct (decide (available = [])) as [|_]; [done|]. cbn [fst snd].
    rewrite !collaborator_calls_app, Hc. unfold notify_and_cancel.
    rewrite collaborator_calls_app.
    destruct (sendEmail_trace env (MessageContent.Campground mc) available
                (Format_MonJan2 (run_arrival env mc))
                (Format_MonJan2 (run_departure env mc))) as (-> & _ & _).
    by destruct (deleteJob_trace env (MessageContent.Name mc)) as (-> & _ & _).
  - intros ->. cbn [fst snd].
    rewrite !collaborator_calls_app, !scheduler_requests_app, Hc, Hs. done.
Qed.

Lemma ScrapeFromMessage_notifies_then_cancels_witness :
  json_Unmarshal_MessageContent env_match "payload" = (goodMessage, None)
  ∧ MessageContent.Name goodMessage ≠ ""
  ∧ ScrapeAvailability env_match "232447" (Date 2024 3 5) (Date 2024 3 8)
    = ([EvHttpGet march_url], Returned ["A"])
  ∧ (ScrapeFromMessage env_match "payload").2 = Returned None
  ∧ collaborator_calls (ScrapeFromMessage env_match "payload").1
    = [EvSendEmail "232447" ["A"] "Tue Mar 5" "Fri Mar 8"; EvDeleteJob "job-1"].
Proof.
  assert (json_Unmarshal_MessageContent env_match "payload" = (goodMessage, None))
    as Hdecode by reflexivity.
  assert (MessageContent.Name goodMessage ≠ "") as Hname by discriminate.
  assert (ScrapeAvailability env_match (MessageContent.Campground goodMessage)
            (run_arrival env_match goodMessage) (run_departure env_match goodMessage)
          = ([EvHttpGet march_url], Returned ["A"])) as Hfetch by (vm_compute; reflexivity).
  destruct (ScrapeFromMessage_notifies_then_cancels env_match "payload" goodMessage None
              [EvHttpGet march_url] ["A"] Hdecode Hname Hfetch) as (Hret & Hcalls & _).
  split; [exact Hdecode|]. split; [exact Hname|]. split; [exact Hfetch|].
  split; [exact Hret|]. apply Hcalls. discriminate.
Defined.

(** C10: when a match is found, deleteJob is called with the Name field of
    the payload, the field the guard at the start of the run has tested, and
    the request it sends to the scheduler, once the client exists, names the
    job of that name. *)
Theorem ScrapeFromMessage_cancels_Name (env : Env) (m_Data : string)
    (mc : MessageContent.t) (err : option error) (tr : list event)
    (available : list string) :
  json_Unmarshal_MessageContent env m_Data = (mc, err) →
  MessageContent.Name mc ≠ "" →
  ScrapeAvailability env (MessageContent.Campground mc) (run_arrival env mc)
                     (run_departure env mc) = (tr, Returned available) →
  available ≠ [] →
  deleteJob_calls (ScrapeFromMessage env m_Data).1 = [MessageContent.Name mc]
  ∧ (NewCloudSchedulerClient env = None →
       scheduler_requests (ScrapeFromMessage env m_Data).1
       = ["projects/camp-finder-258618/locations/us-west2/jobs/"
          +:+ MessageContent.Name mc]).
Proof.
  intros Hdecode Hname Hfetch Hne.
  rewrite (ScrapeFromMessage_after_fetch _ _ _ _ _ _ Hdecode Hname Hfetch).
  pose proof (ScrapeAvailability_trace env (MessageContent.Campground mc)
                (run_arrival env mc) (run_departure env mc)) as Htr.
  rewrite Hfetch in Htr. simpl in Htr. subst tr.
  destruct (decode_log_quiet err) as (_ & Hd & Hs & _).
  destruct (decide (available = [])) as [|_]; [done|]. cbn [fst snd].
  rewrite !deleteJob_calls_app, !scheduler_requests_app, Hd, Hs.
  unfold notify_and_cancel. rewrite deleteJob_calls_app, scheduler_requests_app.
  destruct (sendEmail_trace env (MessageContent.Campground mc) available
              (Format_MonJan2 (run_arrival env mc))
              (Format_MonJan2 (run_departure env mc))) as (_ & -> & ->).
  destruct (deleteJob_trace env (MessageContent.Name mc)) as (_ & -> & ->).
  split; [done|]. by intros ->.
Qed.

Lemma ScrapeFromMessage_cancels_Name_witness :
  json_Unmarshal_MessageContent env_match "payload" = (goodMessage, None)
  ∧ MessageContent.Name goodMessage ≠ ""
  ∧ ScrapeAvailability env_match "232447" (Date 2024 3 5) (Date 2024 3 8)
    = ([EvHttpGet march_url], Returned ["A"])
  ∧ ["A"] ≠ ([] : list string)
  ∧ NewCloudSchedulerClient env_match = None
  ∧ deleteJob_calls (ScrapeFromMessage env_match "payload").1 = ["job-1"]
  ∧ scheduler_requests (ScrapeFromMessage env_match "payload").1
    = ["projects/camp-finder-258618/locations/us-west2/jobs/job-1"].
Proof.
  assert (json_Unmarshal_MessageContent env_match "payload" = (goodMessage, None))
    as Hdecode by reflexivity.
  assert (MessageContent.Name goodMessage ≠ "") as Hname by discriminate.
  assert (ScrapeAvailability env_match (MessageContent.Campground goodMessage)
            (run_arrival env_match goodMessage) (run_departure env_match goodMessage)
          = ([EvHttpGet march_url], Returned ["A"])) as Hfetch by (vm_compute; reflexivity).
  assert (["A"] ≠ ([] : list string)) as Hne by discriminate.
  destruct (ScrapeFromMessage_cancels_Name env_match "payload" goodMessage None
              [EvHttpGet march_url] ["A"] Hdecode Hname Hfetch Hne) as (Hcall & Hreq).
  split; [exact Hdecode|]. split; [exact Hname|]. split; [exact Hfetch|].
  split; [exact Hne|]. split; [reflexivity|]. split; [exact Hcall|].
  apply Hreq. reflexivity.
Defined.

(** C7 (as amended): for every payload whose Name field is empty after
    decoding, which covers every failed decoding that leaves Name empty,
    ScrapeFromMessage returns an error and nothing downstream runs: apart
    from the log line of a decoding error the trace is empty, so there is no
    fetch, no notification and no cancellation. *)
Theorem ScrapeFromMessage_empty_Name (env : Env) (m_Data : string)
    (mc : MessageContent.t) (err : option error) :
  json_Unmarshal_MessageContent env m_Data = (mc, err) →
  MessageContent.Name mc = "" →
  (ScrapeFromMessage env m_Data).2 = Returned (Some "this is an error")
  ∧ (ScrapeFromMessage env m_Data).1 = decode_log err
  ∧ List.filter is_downstream (ScrapeFromMessage env m_Data).1 = [].
Proof.
  intros Hdecode Hname. rewrite (ScrapeFromMessage_guard _ _ _ _ Hdecode Hname).
  cbn [fst snd]. by destruct (decode_log_quiet err) as (_ & _ & _ & ->).
Qed.

Lemma ScrapeFromMessage_empty_Name_witness :
  json_Unmarshal_MessageContent env_truncated "{"
  = (MessageContent.zero, Some "unexpected end of JSON input")
  ∧ MessageContent.Name MessageContent.zero = ""
  ∧ (ScrapeFromMessage env_truncated "{").2 = Returned (Some "this is an error")
  ∧ (ScrapeFromMessage env_truncated "{").1 = [EvLog "unexpected end of JSON input"]
  ∧ List.filter is_downstream (ScrapeFromMessage env_truncated "{").1 = [].
Proof.
  assert (json_Unmarshal_MessageContent env_truncated "{"
          = (MessageContent.zero, Some "unexpected end of JSON input")) as Hdecode
    by reflexivity.
  assert (MessageContent.Name MessageContent.zero = "") as Hname by reflexivity.
  destruct (ScrapeFromMessage_empty_Name env_truncated "{" _ _ Hdecode Hname)
    as (Hret & Htr & Hnone).
  split; [exact Hdecode|]. split; [exact Hname|]. split; [exact Hret|].
  split; [exact Htr|exact Hnone].
Defined.

(** C7 as stated fails: a decoding that reports an error and still fills in
    Name is only logged; the run goes on to fetch, notify and cancel, and
    returns nil. *)
Lemma ScrapeFromMessage_decode_error_goes_on :
  (json_Unmarshal_MessageContent env_mistyped "payload").2 ≠ None
  ∧ (ScrapeFromMessage env_mistyped "payload").2 = Returned None
  ∧ List.filter is_fetch (ScrapeFromMessage env_mistyped "payload").1
    = [EvHttpGet "https://www.recreation.gov/api/camps/availability/campground//month?start_date=2024-03-01T00:00:00Z"]
  ∧ collaborator_calls (ScrapeFromMessage env_mistyped "payload").1
    = [EvSendEmail "" ["A"] "Tue Mar 5" "Fri Mar 8"; EvDeleteJob "job-1"].
Proof.
  split; [discriminate|]. split; [vm_compute; reflexivity|].
  split; vm_compute; reflexivity.
Qed.

(** C5 (as amended): for every payload with a Name whose arrival or
    departure string does not parse, ScrapeFromMessage does not surface the
    failure and never returns an error: it works with the zero Time in the
    place of each date that failed. It calls http.Get with the URL for the
    month of that arrival right after the decoding and, when a response
    comes back, matches the sites on those two dates, notifies and cancels
    on a non-empty match with those dates formatted, and returns nil. *)
Theorem ScrapeFromMessage_unparsed_date (env : Env) (m_Data : string)
    (mc : MessageContent.t) (err : option error) (arrival departure : option Time) :
  json_Unmarshal_MessageContent env m_Data = (mc, err) →
  MessageContent.Name mc ≠ "" →
  time_Parse env (MessageContent.Arrival mc) = arrival →
  time_Parse env (MessageContent.Departure mc) = departure →
  arrival = None ∨ departure = None →
  (∀ e, (ScrapeFromMessage env m_Data).2 ≠ Returned (Some e))
  ∧ (∃ rest,
       (ScrapeFromMessage env m_Data).1
       = decode_log err
         ++ EvHttpGet (start_url (MessageContent.Campground mc) (default zeroTime arrival))
            :: rest)
  ∧ ∀ body,
      http_Get env (start_url (MessageContent.Campground mc) (default zeroTime arrival))
      = Some body →
      ScrapeFromMessage env m_Data
      = (decode_log err
           ++ [EvHttpGet (start_url (MessageContent.Campground mc)
                                    (default zeroTime arrival))]
           ++ (let available :=
                 getAvailableSites (range_Campsites env)
                   (json_Unmarshal_Campground env (ioutil_ReadAll env body).1).1
                   (default zeroTime arrival) (default zeroTime departure) in
               if decide (available = []) then []
               else (sendEmail env (MessageContent.Campground mc) available
                       (Format_MonJan2 (default zeroTime arrival))
                       (Format_MonJan2 (default zeroTime departure))).1
                    ++ (deleteJob env (MessageContent.Name mc)).1),
         Returned None).
Proof.
  intros Hdecode Hname Harr Hdep _.
  assert (run_arrival env mc = default zeroTime arrival) as Ha
    by (unfold run_arrival; by rewrite Harr).
  assert (run_departure env mc = default zeroTime departure) as Hd
    by (unfold run_departure; by rewrite Hdep).
  pose proof (ScrapeAvailability_trace env (MessageContent.Campground mc)
                (run_arrival env mc) (run_departure env mc)) as Htr.
  split; [|split].
  - destruct (ScrapeAvailability env (MessageContent.Campground mc) (run_arrival env mc)
                (run_departure env mc)) as [tr [available|reason]] eqn:Hfetch.
    + by rewrite (ScrapeFromMessage_after_fetch _ _ _ _ _ _ Hdecode Hname Hfetch).
    + by rewrite (ScrapeFromMessage_fetch_panics _ _ _ _ _ _ Hdecode Hname Hfetch).
  - rewrite <- Ha.
    destruct (ScrapeAvailability env (MessageContent.Campground mc) (run_arrival env mc)
                (run_departure env mc)) as [tr [available|reason]] eqn:Hfetch;
      cbn [fst] in Htr; subst tr.
    + rewrite (ScrapeFromMessage_after_fetch _ _ _ _ _ _ Hdecode Hname Hfetch).
      by eexists.
    + rewrite (ScrapeFromMessage_fetch_panics _ _ _ _ _ _ Hdecode Hname Hfetch).
      by eexists.
  - intros body Hget. rewrite <- Ha, <- Hd in *.
    apply (ScrapeFromMessage_after_fetch _ _ _ _ _ _ Hdecode Hname).
    by apply ScrapeAvailability_response.
Qed.

Lemma ScrapeFromMessage_unparsed_date_witness :
  json_Unmarshal_MessageContent env_badDeparture "payload" = (badDeparture, None)
  ∧ MessageContent.Name badDeparture ≠ ""
  ∧ time_Parse env_badDeparture (MessageContent.Arrival badDeparture)
    = Some (Date 2024 3 5)
  ∧ time_Parse env_badDeparture (MessageContent.Departure badDeparture) = None
  ∧ http_Get env_badDeparture march_url = Some "{}"
  ∧ getAvailableSites (range_Campsites env_badDeparture) sampleCampground
      (Date 2024 3 5) zeroTime = []
  ∧ ScrapeFromMessage env_badDeparture "payload" = ([EvHttpGet march_url], Returned None).
Proof.
  assert (json_Unmarshal_MessageContent env_badDeparture "payload" = (badDeparture, None))
    as Hdecode by reflexivity.
  assert (MessageContent.Name badDeparture ≠ "") as Hname by discriminate.
  assert (time_Parse env_badDeparture (MessageContent.Arrival badDeparture)
          = Some (Date 2024 3 5)) as Harr by reflexivity.
  assert (time_Parse env_badDeparture (MessageContent.Departure badDeparture) = None)
    as Hdep by reflexivity.
  destruct (ScrapeFromMessage_unparsed_date env_badDeparture "payload" badDeparture None
              (Some (Date 2024 3 5)) None Hdecode Hname Harr Hdep (or_intror eq_refl))
    as (_ & _ & Hrun).
  split; [exact Hdecode|]. split; [exact Hname|]. split; [exact Harr|].
  split; [exact Hdep|]. split; [reflexivity|]. split; [vm_compute; reflexivity|].
  exact (Hrun "{}" eq_refl).
Defined.

(** C5 as stated fails: with a departure string that does not parse, the
    request is issued all the same and the run returns nil. *)
Lemma ScrapeFromMessage_unparsed_date_fetches :
  time_Parse env_badDeparture (MessageContent.Departure badDeparture) = None
  ∧ ScrapeFromMessage env_badDeparture "payload" = ([EvHttpGet march_url], Returned None).
Proof. split; [reflexivity|]. vm_compute. reflexivity. Qed.

(** C9: a payload that decodes with the non-empty Name "job-1", in a run
    whose call to http.Get fails: the nil response is dereferenced and
    ScrapeFromMessage panics after that call; it does not return nil. *)
Theorem ScrapeFromMessage_offline_panics :
  json_Unmarshal_MessageContent env_offline "payload" = (goodMessage, None)
  ∧ MessageContent.Name goodMessage ≠ ""
  ∧ http_Get env_offline march_url = None
  ∧ ScrapeFromMessage env_offline "payload"
    = ([EvHttpGet march_url],
       Panicked "runtime error: invalid memory address or nil pointer dereference")
  ∧ (ScrapeFromMessage env_offline "payload").2 ≠ Returned None.
Proof.
  split; [reflexivity|]. split; [discriminate|]. split; [reflexivity|].
  split; [vm_compute; reflexivity|]. vm_compute. discriminate.
Qed.

(** C6 (as amended): when the HTTP request yields a response,
    ScrapeAvailability propagates no failure of reading or decoding it: both
    errors are dropped and the result is what the matcher finds in the
    Campground the decoder has left, which is nothing when the decoder has
    left the zero Campground. *)
Theorem ScrapeAvailability_drops_errors (env : Env) (campgroundID body : string)
    (arrival departure : Time) :
  http_Get env (start_url campgroundID arrival) = Some body →
  ScrapeAvailability env campgroundID arrival departure
  = ([EvHttpGet (start_url campgroundID arrival)],
     Returned (getAvailableSites (range_Campsites env)
                 (json_Unmarshal_Campground env (ioutil_ReadAll env body).1).1
                 arrival departure))
  ∧ (rangeOrder (range_Campsites env) →
     (json_Unmarshal_Campground env (ioutil_ReadAll env body).1).1 = zeroCampground →
     ScrapeAvailability env campgroundID arrival departure
     = ([EvHttpGet (start_url campgroundID arrival)], Returned [])).
Proof.
  intros Hget. rewrite (ScrapeAvailability_response _ _ _ _ _ Hget).
  split; [done|]. intros Hvisit Hzero. unfold decoded_campground. rewrite Hzero.
  unfold getAvailableSites. rewrite availableSitesOn_filter. simpl.
  rewrite map_to_list_empty.
  pose proof (Hvisit []) as Hnil. apply Permutation_nil_r in Hnil. by rewrite Hnil.
Qed.

Lemma ScrapeAvailability_drops_errors_witness :
  http_Get env_bad_body march_url = Some "<html>"
  ∧ rangeOrder (range_Campsites env_bad_body)
  ∧ json_Unmarshal_Campground env_bad_body "<html>"
    = (zeroCampground, Some "invalid character '<' looking for beginning of value")
  ∧ ScrapeAvailability env_bad_body "232447" (Date 2024 3 5) (Date 2024 3 8)
    = ([EvHttpGet march_url], Returned []).
Proof.
  assert (http_Get env_bad_body (start_url "232447" (Date 2024 3 5)) = Some "<html>")
    as Hget by reflexivity.
  assert (rangeOrder (range_Campsites env_bad_body)) as Hvisit by (intros entries; reflexivity).
  assert ((json_Unmarshal_Campground env_bad_body
             (ioutil_ReadAll env_bad_body "<html>").1).1 = zeroCampground)
    as Hzero by reflexivity.
  destruct (ScrapeAvailability_drops_errors env_bad_body "232447" "<html>"
              (Date 2024 3 5) (Date 2024 3 8) Hget) as (_ & Hrun).
  split; [exact Hget|]. split; [exact Hvisit|]. split; [reflexivity|].
  exact (Hrun Hvisit Hzero).
Defined.

(** C6 as stated fails: the decoding of the body reports an error, and the
    sites are matched on the part that was decoded and returned. *)
Lemma ScrapeAvailability_matches_partial_data :
  (json_Unmarshal_Campground env_partial "{}").2 ≠ None
  ∧ ScrapeAvailability env_partial "232447" (Date 2024 3 5) (Date 2024 3 8)
    = ([EvHttpGet march_url], Returned ["A"]).
Proof. split; [discriminate|]. vm_compute. reflexivity. Qed.

(** * Further properties *)

(** ** getDates on any two calendar dates *)

Lemma daysBetween_calendar (x y : Z) :
  daysBetween (x * nsPerDay) (y * nsPerDay) = y - x.
Proof.
  unfold daysBetween.
  replace (y * nsPerDay - x * nsPerDay) with ((y - x) * nsPerDay) by lia.
  by rewrite Z.div_mul.
Qed.

Lemma seqZ_min_bound (day n : Z) :
  day ∈ seqZ 0 (Z.min n maxDays) ↔ 0 ≤ day < n ∧ day < maxDays.
Proof. rewrite elem_of_seqZ. lia. Qed.

(** The list of getDates, whatever the order and the distance of the two
    dates. *)
Lemma getDates_seqZ (arrival departure : Time) :
  calendarDate arrival → calendarDate departure →
  getDates arrival departure
  = (λ day : Z, addDays arrival day)
      <$> seqZ 0 (Z.min (daysBetween arrival departure) maxDays).
Proof.
  intros Ha Hd. rewrite (getDates_unfold _ _ Ha Hd). f_equal.
  destruct Ha as [x ->], Hd as [y ->]. rewrite daysBetween_calendar.
  destruct (Z_lt_le_dec maxDays (y - x)) as [Hfar|Hnear].
  - rewrite dayCount_saturated_up, Z.min_r; [done|lia|].
    unfold maxDays, maxDuration, nsPerDay, Hour in *. lia.
  - rewrite Z.min_l by done. destruct (Z_lt_le_dec 0 (y - x)) as [Hpos|Hneg].
    + f_equal. rewrite <- (daysBetween_calendar x y).
      apply dayCount_calendar; try (by eexists).
      * unfold nsPerDay, Hour. lia.
      * by rewrite daysBetween_calendar.
    + rewrite (seqZ_nil _ (y - x)) by done. apply seqZ_nil.
      destruct (Z_lt_le_dec (y * nsPerDay - x * nsPerDay) minDuration) as [Hdn|Hdn].
      * rewrite dayCount_saturated_down by done. done.
      * apply (dayCount_nonpositive (y - x)); [done|].
        rewrite Sub_in_range; unfold maxDuration, nsPerDay, Hour in *; lia.
Qed.

(** X1: for any two calendar dates getDates returns consecutive days from
    arrival on: as many as there are days from arrival to departure, none
    when that number is not positive, and only the first 106751 when it is
    larger. *)
Theorem getDates_any_distance (arrival departure : Time) :
  calendarDate arrival → calendarDate departure →
  Z.of_nat (length (getDates arrival departure))
  = Z.max 0 (Z.min (daysBetween arrival departure) maxDays)
  ∧ ∀ i : Z, 0 ≤ i < Z.min (daysBetween arrival departure) maxDays →
      getDates arrival departure !! Z.to_nat i = Some (addDays arrival i).
Proof.
  intros Ha Hd. rewrite (getDates_seqZ _ _ Ha Hd). split.
  - rewrite length_fmap, length_seqZ. lia.
  - intros i Hi. rewrite list_lookup_fmap, lookup_seqZ_lt by lia.
    simpl. by rewrite Z2Nat.id by lia.
Qed.

Lemma getDates_any_distance_witness :
  calendarDate (Date 1 1 1) ∧ calendarDate (Date 2024 3 8)
  ∧ daysBetween (Date 1 1 1) (Date 2024 3 8) = 738952
  ∧ Z.of_nat (length (getDates (Date 1 1 1) (Date 2024 3 8))) = 106751
  ∧ getDates (Date 1 1 1) (Date 2024 3 8) !! Z.to_nat 106750
    = Some (addDays (Date 1 1 1) 106750).
Proof.
  assert (calendarDate (Date 1 1 1)) as Ha by (eexists; reflexivity).
  assert (calendarDate (Date 2024 3 8)) as Hd by (eexists; reflexivity).
  destruct (getDates_any_distance _ _ Ha Hd) as [Hlen Hnth].
  split; [exact Ha|]. split; [exact Hd|]. split; [vm_compute; reflexivity|].
  split; [exact Hlen|]. apply Hnth. vm_compute. split; [discriminate|reflexivity].
Defined.

(** X2: whatever the two calendar dates, every date getDates returns is a
    calendar date from arrival on and before departure, and no date is
    returned twice. *)
Theorem getDates_within_stay (arrival departure : Time) :
  calendarDate arrival → calendarDate departure →
  (∀ date, date ∈ getDates arrival departure →
     calendarDate date ∧ arrival ≤ date < departure)
  ∧ NoDup (getDates arrival departure).
Proof.
  intros Ha Hd. rewrite (getDates_seqZ _ _ Ha Hd).
  destruct Ha as [x ->], Hd as [y ->]. rewrite daysBetween_calendar. split.
  - intros date Hin. apply list_elem_of_fmap in Hin as (day & -> & Hday).
    apply seqZ_min_bound in Hday. unfold addDays. split.
    + exists (x + day). lia.
    + unfold nsPerDay, Hour. lia.
  - apply NoDup_fmap_2; [|apply NoDup_seqZ].
    intros d1 d2 Heq. unfold addDays, nsPerDay, Hour in Heq. lia.
Qed.

Lemma getDates_within_stay_witness :
  calendarDate (Date 2024 3 5) ∧ calendarDate (Date 2024 3 8)
  ∧ (∀ date, date ∈ getDates (Date 2024 3 5) (Date 2024 3 8) →
       calendarDate date ∧ Date 2024 3 5 ≤ date < Date 2024 3 8)
  ∧ NoDup (getDates (Date 2024 3 5) (Date 2024 3 8)).
Proof.
  assert (calendarDate (Date 2024 3 5)) as Ha by (eexists; reflexivity).
  assert (calendarDate (Date 2024 3 8)) as Hd by (eexists; reflexivity).
  split; [exact Ha|]. split; [exact Hd|]. exact (getDates_within_stay _ _ Ha Hd).
Defined.

(** X3: the error of time.ParseDuration that getDates discards never
    occurs between calendar dates: for every day the loop reaches, the
    string parses to that many days. *)
Theorem getDates_ParseDuration_succeeds (startDate endDate : Time) (day : Z) :
  calendarDate startDate → calendarDate endDate →
  0 ≤ day < dayCount startDate endDate →
  ParseDuration_hours (24 * day) = (day * nsPerDay, None).
Proof.
  intros Hs He Hday. pose proof (dayCount_le_maxDays _ _ Hs He) as Hmax.
  unfold ParseDuration_hours.
  destruct (Z.leb_spec minDuration (24 * day * Hour));
    destruct (Z.leb_spec (24 * day * Hour) maxDuration); simpl;
    try (f_equal; unfold nsPerDay; lia);
    unfold nsPerDay, Hour, minDuration, maxDuration, maxDays in *; lia.
Qed.

Lemma getDates_ParseDuration_succeeds_witness :
  calendarDate (Date 2024 3 5) ∧ calendarDate (Date 2024 3 8)
  ∧ 0 ≤ 2 < dayCount (Date 2024 3 5) (Date 2024 3 8)
  ∧ ParseDuration_hours (24 * 2) = (2 * nsPerDay, None).
Proof.
  assert (calendarDate (Date 2024 3 5)) as Ha by (eexists; reflexivity).
  assert (calendarDate (Date 2024 3 8)) as Hd by (eexists; reflexivity).
  assert (0 ≤ 2 < dayCount (Date 2024 3 5) (Date 2024 3 8)) as Hday
    by (vm_compute; split; [discriminate|reflexivity]).
  split; [exact Ha|]. split; [exact Hd|]. split; [exact Hday|].
  exact (getDates_ParseDuration_succeeds _ _ 2 Ha Hd Hday).
Defined.

(** ** getAvailableSites, further *)

(** Membership in the result, for any dates. *)
Lemma availableSitesOn_elem visit (campground : Campground) (dates : list Time)
    (siteID : string) :
  rangeOrder visit →
  siteID ∈ availableSitesOn visit campground dates
  ↔ dates ≠ [] ∧ ∃ site, Campsites campground !! siteID = Some site
                         ∧ fullyAvailable site dates.
Proof.
  intros Hvisit. unfold rangeOrder in Hvisit.
  rewrite availableSitesOn_filter, list_elem_of_fmap. split.
  - intros ([siteID' site] & -> & Hin).
    apply list_elem_of_filter in Hin as [[Hne Hq] Hin].
    rewrite Hvisit in Hin. apply elem_of_map_to_list in Hin.
    split; [done|]. exists site. split; [done|]. by apply fullyAvailable_Forall.
  - intros (Hne & site & Hsite & Hq). exists (siteID, site). split; [done|].
    apply list_elem_of_filter. split.
    + split; [done|]. by apply fullyAvailable_Forall.
    + rewrite Hvisit. by apply elem_of_map_to_list.
Qed.

(** X4: for a stay between calendar dates, arrival before departure and at
    most 106751 days long, getAvailableSites returns a site exactly when the
    campground has it and its label is "Available" on each night from
    arrival to the day before departure. *)
Theorem getAvailableSites_stay visit (campground : Campground)
    (arrival departure : Time) (siteID : string) :
  rangeOrder visit →
  calendarDate arrival → calendarDate departure → arrival < departure →
  daysBetween arrival departure ≤ maxDays →
  siteID ∈ getAvailableSites visit campground arrival departure
  ↔ ∃ site, Campsites campground !! siteID = Some site
            ∧ ∀ i : Z, 0 ≤ i < daysBetween arrival departure →
                Availabilities site !! inUTC (addDays arrival i) = Some "Available".
Proof.
  intros Hvisit Ha Hd Hlt Hmax. unfold getAvailableSites.
  rewrite (availableSitesOn_elem _ _ _ _ Hvisit), (getDates_seqZ _ _ Ha Hd).
  rewrite Z.min_l by done.
  assert (0 < daysBetween arrival departure) as Hpos.
  { destruct Ha as [x ->], Hd as [y ->]. rewrite daysBetween_calendar.
    unfold nsPerDay, Hour in Hlt. lia. }
  split.
  - intros (_ & site & Hsite & Hq). exists site. split; [done|]. intros i Hi.
    apply Hq, list_elem_of_fmap. exists i. split; [done|]. apply elem_of_seqZ. lia.
  - intros (site & Hsite & Hq). split.
    + rewrite seqZ_cons by done. done.
    + exists site. split; [done|]. intros date Hin.
      apply list_elem_of_fmap in Hin as (i & -> & Hi). apply elem_of_seqZ in Hi.
      apply Hq. lia.
Qed.

Lemma getAvailableSites_stay_witness :
  rangeOrder (λ entries, entries)
  ∧ calendarDate (Date 2024 3 5) ∧ calendarDate (Date 2024 3 8)
  ∧ Date 2024 3 5 < Date 2024 3 8
  ∧ daysBetween (Date 2024 3 5) (Date 2024 3 8) ≤ maxDays
  ∧ ("A" ∈ getAvailableSites (λ entries, entries) sampleCampground
             (Date 2024 3 5) (Date 2024 3 8)
     ↔ ∃ site, Campsites sampleCampground !! "A" = Some site
               ∧ ∀ i : Z, 0 ≤ i < daysBetween (Date 2024 3 5) (Date 2024 3 8) →
                   Availabilities site !! inUTC (addDays (Date 2024 3 5) i) = Some "Available").
Proof.
  assert (rangeOrder (λ entries, entries)) as Hvisit by (intros entries; reflexivity).
  assert (calendarDate (Date 2024 3 5)) as Ha by (eexists; reflexivity).
  assert (calendarDate (Date 2024 3 8)) as Hd by (eexists; reflexivity).
  assert (Date 2024 3 5 < Date 2024 3 8) as Hlt by (vm_compute; reflexivity).
  assert (daysBetween (Date 2024 3 5) (Date 2024 3 8) ≤ maxDays) as Hmax
    by (vm_compute; discriminate).
  split; [exact Hvisit|]. split; [exact Ha|]. split; [exact Hd|].
  split; [exact Hlt|]. split; [exact Hmax|].
  exact (getAvailableSites_stay _ sampleCampground _ _ "A" Hvisit Ha Hd Hlt Hmax).
Defined.

(** X5: the order in which the map is visited only permutes the result:
    two admissible orders give the same sites. *)
Theorem availableSitesOn_any_order visit1 visit2 (campground : Campground)
    (dates : list Time) :
  rangeOrder visit1 → rangeOrder visit2 →
  availableSitesOn visit1 campground dates ≡ₚ availableSitesOn visit2 campground dates.
Proof.
  intros H1 H2. rewrite !availableSitesOn_filter.
  by rewrite (H1 (map_to_list (Campsites campground))),
             (H2 (map_to_list (Campsites campground))).
Qed.

Lemma availableSitesOn_any_order_witness :
  rangeOrder (λ entries, entries) ∧ rangeOrder (@reverse (string * Campsite))
  ∧ availableSitesOn (λ entries, entries) sampleCampground sampleNights
    ≡ₚ availableSitesOn reverse sampleCampground sampleNights.
Proof.
  assert (rangeOrder (λ entries, entries)) as H1 by (intros entries; reflexivity).
  assert (rangeOrder (@reverse (string * Campsite))) as H2
    by (intros entries; apply reverse_Permutation).
  split; [exact H1|]. split; [exact H2|].
  exact (availableSitesOn_any_order _ _ sampleCampground sampleNights H1 H2).
Defined.

(** X6: asking for more nights never adds a site: when every night of a
    non-empty [dates1] is among [dates2], each site returned for [dates2] is
    returned for [dates1]. *)
Theorem availableSitesOn_more_nights visit (campground : Campground)
    (dates1 dates2 : list Time) :
  rangeOrder visit → dates1 ≠ [] → dates1 ⊆ dates2 →
  availableSitesOn visit campground dates2 ⊆ availableSitesOn visit campground dates1.
Proof.
  intros Hvisit Hne Hsub siteID.
  rewrite !(availableSitesOn_elem _ _ _ _ Hvisit).
  intros (_ & site & Hsite & Hq). split; [done|]. exists site. split; [done|].
  intros date Hin. by apply Hq, Hsub.
Qed.

Lemma availableSitesOn_more_nights_witness :
  rangeOrder (λ entries, entries) ∧ [Date 2024 3 5] ≠ []
  ∧ [Date 2024 3 5] ⊆ sampleNights
  ∧ availableSitesOn (λ entries, entries) sampleCampground sampleNights
    ⊆ availableSitesOn (λ entries, entries) sampleCampground [Date 2024 3 5].
Proof.
  assert (rangeOrder (λ entries, entries)) as Hvisit by (intros entries; reflexivity).
  assert ([Date 2024 3 5] ≠ []) as Hne by discriminate.
  assert ([Date 2024 3 5] ⊆ sampleNights) as Hsub.
  { intros date Hin. apply list_elem_of_singleton in Hin as ->. left. }
  split; [exact Hvisit|]. split; [exact Hne|]. split; [exact Hsub|].
  exact (availableSitesOn_more_nights _ sampleCampground _ _ Hvisit Hne Hsub).
Defined.

(** X7: changing the label of one required night of a site to anything but
    "Available" takes that site out of the result and leaves every other
    site as it was. *)
Theorem availableSitesOn_relabel visit (campground : Campground) (dates : list Time)
    (siteID : string) (site : Campsite) (date : Time) (label : string) :
  rangeOrder visit → date ∈ dates → label ≠ "Available" →
  (siteID ∉ availableSitesOn visit (relabel campground siteID site date label) dates)
  ∧ ∀ other, other ≠ siteID →
      (other ∈ availableSitesOn visit (relabel campground siteID site date label) dates
       ↔ other ∈ availableSitesOn visit campground dates).
Proof.
  intros Hvisit Hdate Hlabel. split.
  - rewrite (availableSitesOn_elem _ _ _ _ Hvisit).
    intros (_ & site' & Hsite' & Hq). simpl in Hsite'.
    rewrite lookup_insert_eq in Hsite'. injection Hsite' as <-.
    specialize (Hq date Hdate). simpl in Hq. rewrite lookup_insert_eq in Hq. congruence.
  - intros other Hother. rewrite !(availableSitesOn_elem _ _ _ _ Hvisit). simpl.
    by rewrite lookup_insert_ne.
Qed.

Lemma availableSitesOn_relabel_witness :
  rangeOrder (λ entries, entries) ∧ Date 2024 3 6 ∈ sampleNights
  ∧ "Reserved" ≠ "Available"
  ∧ "A" ∉ availableSitesOn (λ entries, entries)
            (relabel sampleCampground "A" siteA (Date 2024 3 6) "Reserved") sampleNights.
Proof.
  assert (rangeOrder (λ entries, entries)) as Hvisit by (intros entries; reflexivity).
  assert (Date 2024 3 6 ∈ sampleNights) as Hdate by (right; left).
  assert ("Reserved" ≠ "Available") as Hlabel by discriminate.
  split; [exact Hvisit|]. split; [exact Hdate|]. split; [exact Hlabel|].
  exact (proj1 (availableSitesOn_relabel _ sampleCampground sampleNights "A" siteA
                  (Date 2024 3 6) "Reserved" Hvisit Hdate Hlabel)).
Defined.

(** The counter follows the list through the loops. *)
Lemma foldl_rangeDates_count (dates : list Time) (entries : list (string * Campsite))
    (st : Z * list string) :
  st.1 = Z.of_nat (length st.2) →
  (foldl (λ st entry, rangeDates entry.2 entry.1 (Z.of_nat (length dates)) 0 dates st)
         st entries).1
  = Z.of_nat (length (foldl (λ st entry,
                        rangeDates entry.2 entry.1 (Z.of_nat (length dates)) 0 dates st)
                      st entries).2).
Proof.
  revert st. induction entries as [|entry entries IH]; intros st Hst; [done|].
  simpl. apply IH. rewrite rangeDates_spec by lia.
  destruct (decide _); [|done]. simpl. rewrite length_app. simpl. lia.
Qed.

(** X8: at the end of the loops [count] is the length of
    [campsiteNames], and the function returns those names. *)
Theorem availableSitesState_count visit (campground : Campground) (dates : list Time) :
  (availableSitesState visit campground dates).1
  = Z.of_nat (length (availableSitesState visit campground dates).2)
  ∧ (availableSitesState visit campground dates).2
    = availableSitesOn visit campground dates.
Proof. split; [by apply foldl_rangeDates_count|done]. Qed.

(** X9: whatever the nights, the result holds only keys of the campground's
    map and is never longer than the map has sites. *)
Theorem availableSitesOn_bounded visit (campground : Campground) (dates : list Time) :
  rangeOrder visit →
  (∀ siteID, siteID ∈ availableSitesOn visit campground dates →
     is_Some (Campsites campground !! siteID))
  ∧ (length (availableSitesOn visit campground dates) ≤ size (Campsites campground))%nat.
Proof.
  intros Hvisit. split.
  - intros siteID Hin. apply (availableSitesOn_elem _ _ _ _ Hvisit) in Hin
      as (_ & site & Hsite & _). by exists site.
  - rewrite availableSitesOn_filter, length_fmap.
    etrans; [apply length_filter|]. unfold rangeOrder in Hvisit.
    by rewrite Hvisit, length_map_to_list.
Qed.

Lemma availableSitesOn_bounded_witness :
  rangeOrder (λ entries, entries)
  ∧ (length (availableSitesOn (λ entries, entries) sampleCampground sampleNights)
     ≤ size (Campsites sampleCampground))%nat.
Proof.
  assert (rangeOrder (λ entries, entries)) as Hvisit by (intros entries; reflexivity).
  split; [exact Hvisit|].
  exact (proj2 (availableSitesOn_bounded _ sampleCampground sampleNights Hvisit)).
Defined.

(** ** The collaborators' errors *)

(** X10: deleteJob returns the error of the client's creation, else the
    error of the DeleteJob request, and nil exactly when both succeed; when
    the client cannot be created no request reaches the scheduler. *)
Theorem deleteJob_result (env : Env) (jobName : string) :
  (deleteJob env jobName).2
  = Returned (match NewCloudSchedulerClient env with
              | Some err => Some err
              | None => scheduler_DeleteJob env
                          ("projects/camp-finder-258618/locations/us-west2/jobs/" +:+ jobName)
              end)
  ∧ ((deleteJob env jobName).2 = Returned None
     ↔ NewCloudSchedulerClient env = None
       ∧ scheduler_DeleteJob env
           ("projects/camp-finder-258618/locations/us-west2/jobs/" +:+ jobName) = None)
  ∧ (is_Some (NewCloudSchedulerClient env) →
     scheduler_requests (deleteJob env jobName).1 = []).
Proof.
  unfold deleteJob. destruct (NewCloudSchedulerClient env) as [err|].
  - split; [done|]. split; [|done]. split; [done|]. by intros [? _].
  - destruct (scheduler_DeleteJob env _) as [err|].
    + split; [done|]. split; [|by intros [? ?]]. split; [done|]. by intros [_ ?].
    + split; [done|]. split; [|by intros [? ?]]. done.
Qed.

Lemma sendEmail_run (env : Env) (id : string) (availableSites : list string)
    (arrival departure : string) :
  sendEmail env id availableSites arrival departure
  = ([EvSendEmail id availableSites arrival departure;
      EvMailSend (notification id availableSites arrival departure)]
       ++ match sendgrid_Send env (notification id availableSites arrival departure) with
          | inr err => [EvLog err]
          | inl (StatusCode, Body, Headers) =>
              [EvPrint (pretty StatusCode); EvPrint Body; EvPrint Headers]
          end,
     Returned tt).
Proof.
  unfold sendEmail. fold (notification id availableSites arrival departure).
  by destruct (sendgrid_Send env _) as [[[? ?] ?]|?].
Qed.

(** X11: a notification that SendGrid refuses does not stop the run: the
    error is logged, deleteJob is called all the same and
    ScrapeFromMessage returns nil. *)
Theorem ScrapeFromMessage_mail_failure (env : Env) (m_Data : string)
    (mc : MessageContent.t) (err : option error) (tr : list event)
    (available : list string) (e : error) :
  json_Unmarshal_MessageContent env m_Data = (mc, err) →
  MessageContent.Name mc ≠ "" →
  ScrapeAvailability env (MessageContent.Campground mc) (run_arrival env mc)
                     (run_departure env mc) = (tr, Returned available) →
  available ≠ [] →
  sendgrid_Send env
    (notification (MessageContent.Campground mc) available
       (Format_MonJan2 (run_arrival env mc)) (Format_MonJan2 (run_departure env mc)))
  = inr e →
  ScrapeFromMessage env m_Data
  = (decode_log err ++ tr
       ++ [EvSendEmail (MessageContent.Campground mc) available
             (Format_MonJan2 (run_arrival env mc)) (Format_MonJan2 (run_departure env mc));
           EvMailSend (notification (MessageContent.Campground mc) available
             (Format_MonJan2 (run_arrival env mc)) (Format_MonJan2 (run_departure env mc)));
           EvLog e]
       ++ (deleteJob env (MessageContent.Name mc)).1,
     Returned None).
Proof.
  intros Hdecode Hname Hfetch Hne Hsend.
  rewrite (ScrapeFromMessage_after_fetch _ _ _ _ _ _ Hdecode Hname Hfetch).
  destruct (decide (available = [])) as [|_]; [done|].
  unfold notify_and_cancel. by rewrite sendEmail_run, Hsend.
Qed.

Lemma ScrapeFromMessage_mail_failure_witness :
  json_Unmarshal_MessageContent env_mail_down "payload" = (goodMessage, None)
  ∧ MessageContent.Name goodMessage ≠ ""
  ∧ ScrapeAvailability env_mail_down "232447" (Date 2024 3 5) (Date 2024 3 8)
    = ([EvHttpGet march_url], Returned ["A"])
  ∧ sendgrid_Send env_mail_down (notification "232447" ["A"] "Tue Mar 5" "Fri Mar 8")
    = inr "Post https://api.sendgrid.com/v3/mail/send: EOF"
  ∧ (ScrapeFromMessage env_mail_down "payload").2 = Returned None
  ∧ deleteJob_calls (ScrapeFromMessage env_mail_down "payload").1 = ["job-1"].
Proof.
  assert (json_Unmarshal_MessageContent env_mail_down "payload" = (goodMessage, None))
    as Hdecode by reflexivity.
  assert (MessageContent.Name goodMessage ≠ "") as Hname by discriminate.
  assert (ScrapeAvailability env_mail_down (MessageContent.Campground goodMessage)
            (run_arrival env_mail_down goodMessage) (run_departure env_mail_down goodMessage)
          = ([EvHttpGet march_url], Returned ["A"])) as Hfetch by (vm_compute; reflexivity).
  assert (["A"] ≠ ([] : list string)) as Hne by discriminate.
  assert (sendgrid_Send env_mail_down
            (notification (MessageContent.Campground goodMessage) ["A"]
               (Format_MonJan2 (run_arrival env_mail_down goodMessage))
               (Format_MonJan2 (run_departure env_mail_down goodMessage)))
          = inr "Post https://api.sendgrid.com/v3/mail/send: EOF") as Hsend by reflexivity.
  pose proof (ScrapeFromMessage_mail_failure env_mail_down "payload" goodMessage None
                [EvHttpGet march_url] ["A"] _ Hdecode Hname Hfetch Hne Hsend) as Hrun.
  split; [exact Hdecode|]. split; [exact Hname|]. split; [exact Hfetch|].
  split; [reflexivity|]. rewrite Hrun. split; reflexivity.
Defined.

(** ** ScrapeFromMessage, further *)

Lemma fetches_app (tr1 tr2 : list event) :
  List.filter is_fetch (tr1 ++ tr2) = List.filter is_fetch tr1 ++ List.filter is_fetch tr2.
Proof. apply List.filter_app. Qed.

Lemma notify_and_cancel_no_fetch (env : Env) (mc : MessageContent.t)
    (available : list string) :
  List.filter is_fetch (notify_and_cancel env mc available) = [].
Proof.
  unfold notify_and_cancel. rewrite fetches_app, sendEmail_run.
  assert (List.filter is_fetch (deleteJob env (MessageContent.Name mc)).1 = []) as ->.
  { unfold deleteJob. destruct (NewCloudSchedulerClient env); [done|].
    by destruct (scheduler_DeleteJob env _). }
  by destruct (sendgrid_Send env _) as [[[? ?] ?]|?].
Qed.

(** X12: ScrapeFromMessage returns an error exactly when the decoded Name
    is empty, and the only error it ever returns is "this is an error". *)
Theorem ScrapeFromMessage_error_iff (env : Env) (m_Data : string) :
  ((∃ e, (ScrapeFromMessage env m_Data).2 = Returned (Some e))
   ↔ MessageContent.Name (json_Unmarshal_MessageContent env m_Data).1 = "")
  ∧ ∀ e, (ScrapeFromMessage env m_Data).2 = Returned (Some e) → e = "this is an error".
Proof.
  destruct (json_Unmarshal_MessageContent env m_Data) as [mc err] eqn:Hdecode.
  cbn [fst]. destruct (decide (MessageContent.Name mc = "")) as [Hname|Hname].
  - rewrite (ScrapeFromMessage_guard _ _ _ _ Hdecode Hname). cbn [snd]. split.
    + split; [done|]. intros _. by eexists.
    + by intros e [= <-].
  - destruct (ScrapeAvailability env (MessageContent.Campground mc) (run_arrival env mc)
                (run_departure env mc)) as [tr [available|reason]] eqn:Hfetch.
    + rewrite (ScrapeFromMessage_after_fetch _ _ _ _ _ _ Hdecode Hname Hfetch).
      cbn [snd]. split; [|done]. split; [by intros [e ?]|done].
    + rewrite (ScrapeFromMessage_fetch_panics _ _ _ _ _ _ Hdecode Hname Hfetch).
      cbn [snd]. split; [|done]. split; [by intros [e ?]|done].
Qed.

(** X13: a run calls http.Get exactly once, with the URL for the campground
    and the month of the arrival it works with, when the decoded Name is not
    empty, and never otherwise; this holds however the run ends. *)
Theorem ScrapeFromMessage_one_Get_call (env : Env) (m_Data : string) :
  List.filter is_fetch (ScrapeFromMessage env m_Data).1
  = if decide (MessageContent.Name (json_Unmarshal_MessageContent env m_Data).1 = "")
    then []
    else [EvHttpGet
            (start_url
               (MessageContent.Campground (json_Unmarshal_MessageContent env m_Data).1)
               (run_arrival env (json_Unmarshal_MessageContent env m_Data).1))].
Proof.
  destruct (json_Unmarshal_MessageContent env m_Data) as [mc err] eqn:Hdecode.
  cbn [fst]. assert (List.filter is_fetch (decode_log err) = []) as Hlog by (by destruct err).
  destruct (decide (MessageContent.Name mc = "")) as [Hname|Hname].
  - by rewrite (ScrapeFromMessage_guard _ _ _ _ Hdecode Hname).
  - pose proof (ScrapeAvailability_trace env (MessageContent.Campground mc)
                  (run_arrival env mc) (run_departure env mc)) as Htr.
    destruct (ScrapeAvailability env (MessageContent.Campground mc) (run_arrival env mc)
                (run_departure env mc)) as [tr [available|reason]] eqn:Hfetch;
      cbn [fst] in Htr; subst tr.
    + rewrite (ScrapeFromMessage_after_fetch _ _ _ _ _ _ Hdecode Hname Hfetch).
      cbn [fst]. rewrite !fetches_app, Hlog.
      destruct (decide (available = [])); [done|].
      by rewrite notify_and_cancel_no_fetch.
    + rewrite (ScrapeFromMessage_fetch_panics _ _ _ _ _ _ Hdecode Hname Hfetch).
      cbn [fst]. by rewrite fetches_app, Hlog.
Qed.

Lemma availableSitesOn_nil visit (campground : Campground) :
  availableSitesOn visit campground [] = [].
Proof.
  rewrite availableSitesOn_filter.
  induction (visit (map_to_list (Campsites campground))) as [|entry entries IH]; [done|].
  rewrite filter_cons. by destruct (decide (qualifying [] entry)) as [[H _]|_].
Qed.

(** X14: a request whose departure is not after its arrival finds no site,
    whatever the campground holds: the month is fetched, nobody is notified,
    the job is not cancelled and the run returns nil. *)
Theorem ScrapeFromMessage_backwards_stay (env : Env) (m_Data body : string)
    (mc : MessageContent.t) (err : option error) :
  json_Unmarshal_MessageContent env m_Data = (mc, err) →
  MessageContent.Name mc ≠ "" →
  calendarDate (run_arrival env mc) → calendarDate (run_departure env mc) →
  run_departure env mc ≤ run_arrival env mc →
  http_Get env (start_url (MessageContent.Campground mc) (run_arrival env mc)) = Some body →
  ScrapeFromMessage env m_Data
  = (decode_log err
       ++ [EvHttpGet (start_url (MessageContent.Campground mc) (run_arrival env mc))],
     Returned None).
Proof.
  intros Hdecode Hname Ha Hd Hle Hget.
  pose proof (ScrapeAvailability_response env _ body _ (run_departure env mc) Hget) as Hfetch.
  rewrite (ScrapeFromMessage_after_fetch _ _ _ _ _ _ Hdecode Hname Hfetch).
  unfold getAvailableSites. rewrite (getDates_seqZ _ _ Ha Hd).
  assert (daysBetween (run_arrival env mc) (run_departure env mc) ≤ 0) as Hdays.
  { destruct Ha as [x Hx], Hd as [y Hy]. rewrite Hx, Hy in *.
    rewrite daysBetween_calendar. unfold nsPerDay, Hour in Hle. lia. }
  rewrite seqZ_nil by lia. cbn [fmap list_fmap]. rewrite availableSitesOn_nil.
  destruct (decide (_ = _)); [|done]. by rewrite app_nil_r.
Qed.

Lemma ScrapeFromMessage_backwards_stay_witness :
  json_Unmarshal_MessageContent env_backwards "payload" = (backwardsMessage, None)
  ∧ MessageContent.Name backwardsMessage ≠ ""
  ∧ calendarDate (run_arrival env_backwards backwardsMessage)
  ∧ calendarDate (run_departure env_backwards backwardsMessage)
  ∧ run_departure env_backwards backwardsMessage ≤ run_arrival env_backwards backwardsMessage
  ∧ http_Get env_backwards march_url = Some "{}"
  ∧ ScrapeFromMessage env_backwards "payload" = ([EvHttpGet march_url], Returned None).
Proof.
  assert (json_Unmarshal_MessageContent env_backwards "payload" = (backwardsMessage, None))
    as Hdecode by reflexivity.
  assert (MessageContent.Name backwardsMessage ≠ "") as Hname by discriminate.
  assert (calendarDate (run_arrival env_backwards backwardsMessage)) as Ha
    by (eexists; reflexivity).
  assert (calendarDate (run_departure env_backwards backwardsMessage)) as Hd
    by (eexists; reflexivity).
  assert (run_departure env_backwards backwardsMessage
          ≤ run_arrival env_backwards backwardsMessage) as Hle by (vm_compute; discriminate).
  assert (http_Get env_backwards
            (start_url (MessageContent.Campground backwardsMessage)
                       (run_arrival env_backwards backwardsMessage)) = Some "{}")
    as Hget by reflexivity.
  split; [exact Hdecode|]. split; [exact Hname|]. split; [exact Ha|]. split; [exact Hd|].
  split; [exact Hle|]. split; [exact Hget|].
  exact (ScrapeFromMessage_backwards_stay env_backwards "payload" "{}" backwardsMessage None
           Hdecode Hname Ha Hd Hle Hget).
Defined.

Lemma start_url_zeroTime (campgroundID : string) :
  start_url campgroundID zeroTime
  = "https://www.recreation.gov/api/camps/availability/campground/" +:+ campgroundID
    +:+ "/month?start_date=0001-01-01T00:00:00Z".
Proof. reflexivity. Qed.

(** X15: when neither date string parses, the run asks for the month of
    January of year 1, finds no site, notifies nobody and returns nil. *)
Theorem ScrapeFromMessage_no_dates (env : Env) (m_Data body : string)
    (mc : MessageContent.t) (err : option error) :
  json_Unmarshal_MessageContent env m_Data = (mc, err) →
  MessageContent.Name mc ≠ "" →
  time_Parse env (MessageContent.Arrival mc) = None →
  time_Parse env (MessageContent.Departure mc) = None →
  http_Get env
    ("https://www.recreation.gov/api/camps/availability/campground/"
     +:+ MessageContent.Campground mc +:+ "/month?start_date=0001-01-01T00:00:00Z")
  = Some body →
  ScrapeFromMessage env m_Data
  = (decode_log err
       ++ [EvHttpGet ("https://www.recreation.gov/api/camps/availability/campground/"
                      +:+ MessageContent.Campground mc
                      +:+ "/month?start_date=0001-01-01T00:00:00Z")],
     Returned None).
Proof.
  intros Hdecode Hname Harr Hdep Hget.
  assert (run_arrival env mc = zeroTime) as Ha by (unfold run_arrival; by rewrite Harr).
  assert (run_departure env mc = zeroTime) as Hd by (unfold run_departure; by rewrite Hdep).
  rewrite <- start_url_zeroTime in *. rewrite <- Ha in Hget at 1.
  pose proof (ScrapeAvailability_response env _ body _ (run_departure env mc) Hget) as Hfetch.
  rewrite (ScrapeFromMessage_after_fetch _ _ _ _ _ _ Hdecode Hname Hfetch).
  rewrite Ha, Hd. unfold getAvailableSites.
  change (getDates zeroTime zeroTime) with (@nil Time). rewrite availableSitesOn_nil.
  destruct (decide (_ = _)); [|done]. by rewrite app_nil_r.
Qed.

Lemma ScrapeFromMessage_no_dates_witness :
  json_Unmarshal_MessageContent (env_no_dates goodMessage) "payload" = (goodMessage, None)
  ∧ MessageContent.Name goodMessage ≠ ""
  ∧ time_Parse (env_no_dates goodMessage) (MessageContent.Arrival goodMessage) = None
  ∧ time_Parse (env_no_dates goodMessage) (MessageContent.Departure goodMessage) = None
  ∧ ScrapeFromMessage (env_no_dates goodMessage) "payload"
    = ([EvHttpGet "https://www.recreation.gov/api/camps/availability/campground/232447/month?start_date=0001-01-01T00:00:00Z"],
       Returned None).
Proof.
  assert (json_Unmarshal_MessageContent (env_no_dates goodMessage) "payload"
          = (goodMessage, None)) as Hdecode by reflexivity.
  assert (MessageContent.Name goodMessage ≠ "") as Hname by discriminate.
  split; [exact Hdecode|]. split; [exact Hname|]. split; [reflexivity|].
  split; [reflexivity|].
  exact (ScrapeFromMessage_no_dates (env_no_dates goodMessage) "payload" "{}" goodMessage
           None Hdecode Hname eq_refl eq_refl eq_refl).
Defined.

(** ** TestPub *)

(** X16: TestPub returns nil exactly when the client is created and the
    publication is acknowledged; a client that cannot be created gives
    "pubsub.NewClient: " followed by the cause, a publication that fails is
    logged and gives " messages did not publish successfully". *)
Theorem TestPub_result (ps : PubSub) (available : list string) :
  ((TestPub ps available).2 = None
   ↔ pubsub_NewClient ps = None
     ∧ publish_Get ps ("Found these " +:+ Join available ",") = None)
  ∧ (∀ err, pubsub_NewClient ps = Some err →
       TestPub ps available = ([], Some ("pubsub.NewClient: " +:+ err)))
  ∧ (∀ err, pubsub_NewClient ps = None →
       publish_Get ps ("Found these " +:+ Join available ",") = Some err →
       (TestPub ps available).2 = Some " messages did not publish successfully"
       ∧ PubLog ("Failed to publish: " +:+ err) ∈ (TestPub ps available).1).
Proof.
  unfold TestPub. cbv zeta. destruct (pubsub_NewClient ps) as [cerr|].
  - split; [split; [done|by intros [? _]]|]. split; [by intros err [= ->]|done].
  - destruct (publish_Get ps _) as [perr|]; cbn.
    + split; [split; [done|by intros [_ ?]]|]. split; [done|].
      intros err _ [= ->]. split; [done|]. right. left.
    + split; [done|]. split; done.
Qed.

(** X17: TestPub calls Publish exactly once, with the message "Found
    these " followed by the sites separated by commas, on topic
    TEST_PUB_TOPIC of project camp-finder-258618, when the client is created,
    and never otherwise. *)
Theorem TestPub_one_Publish_call (ps : PubSub) (available : list string) :
  published_data (TestPub ps available).1
  = match pubsub_NewClient ps with
    | Some _ => []
    | None => ["Found these " +:+ Join available ","]
    end
  ∧ ∀ projectID topicID data,
      PubPublish projectID topicID data ∈ (TestPub ps available).1 →
      projectID = "camp-finder-258618" ∧ topicID = "TEST_PUB_TOPIC".
Proof.
  unfold TestPub. cbv zeta. destruct (pubsub_NewClient ps) as [cerr|].
  - split; [done|]. intros ??? Hin. by apply elem_of_nil in Hin.
  - destruct (publish_Get ps _) as [perr|]; cbn; (split; [done|]);
      intros ??? Hin; repeat (apply elem_of_cons in Hin as [Hin|Hin]; [by simplify_eq|]);
      by apply elem_of_nil in Hin.
Qed.

(** ** logJobs *)

Lemma logJobs_loop_jobs (n : nat) (results : list (option error)) :
  logJobs_loop (replicate n None ++ results)
  = (replicate n ListNext ++ (logJobs_loop results).1, (logJobs_loop results).2).
Proof.
  induction n as [|n IH]; simpl; [by destruct (logJobs_loop results)|].
  by rewrite IH.
Qed.

(** X18: with a client, logJobs reads the jobs one by one; it returns nil
    after the last when no call to Next fails, and at the first call that
    fails it logs the error, returns it and reads no further. *)
Theorem logJobs_first_error (sch : JobLister) (n : nat) :
  lister_NewClient sch = None →
  (lister_Next sch = replicate n None →
   logJobs sch
   = (ListJobs "projects/camp-finder-258618/locations/us-west2"
        :: replicate (S n) ListNext,
      Returned None))
  ∧ (∀ err rest, lister_Next sch = replicate n None ++ Some err :: rest →
     logJobs sch
     = (ListJobs "projects/camp-finder-258618/locations/us-west2"
          :: replicate (S n) ListNext ++ [ListLog ("whyhwy2 " +:+ err)],
        Returned (Some err))).
Proof.
  intros Hclient. unfold logJobs. cbv zeta. rewrite Hclient. split.
  - intros ->.
    replace (replicate n None) with (replicate n (@None error) ++ []) by apply app_nil_r.
    rewrite logJobs_loop_jobs. cbn [logJobs_loop fst snd].
    by rewrite <- replicate_S_end.
  - intros err rest ->. rewrite logJobs_loop_jobs. cbn [logJobs_loop fst snd].
    by rewrite replicate_S_end, <- !app_assoc.
Qed.

Lemma logJobs_first_error_witness :
  lister_NewClient lister_ok = None
  ∧ lister_Next lister_ok
    = replicate 2 None ++ Some "rpc error: code = Unavailable" :: [None]
  ∧ logJobs lister_ok
    = ([ListJobs "projects/camp-finder-258618/locations/us-west2"; ListNext; ListNext;
        ListNext; ListLog "whyhwy2 rpc error: code = Unavailable"],
       Returned (Some "rpc error: code = Unavailable")).
Proof.
  assert (lister_NewClient lister_ok = None) as Hclient by reflexivity.
  split; [exact Hclient|]. split; [reflexivity|].
  exact (proj2 (logJobs_first_error lister_ok 2 Hclient)
           "rpc error: code = Unavailable" [None] eq_refl).
Defined.
